(** * K-12 district analytics pipeline: data generator, quality checks, analyses

    A shallow embedding of [src/generate_data.py], [src/quality_checks.py]
    and [src/analysis.py].

    - pandas frames are lists of row records (every column of a frame has
      the frame's length); id columns are integers, categorical columns are
      strings, [fte] and [scale_score] are binary64 numbers;
    - binary64 arithmetic is the Standard Library's executable IEEE-754
      specification ([SpecFloat]) at precision 53;
    - Python exceptions are values of [exn]; code that can raise lives in an
      error monad, the checker additionally threads its [results] object;
    - numpy's random generator is an interface ([Generator]); the data
      generator is a state-passing function over it. *)

From Stdlib Require Import ZArith Lia List Bool.
From Stdlib Require Import Floats.SpecFloat.
From stdpp Require Import base list strings numbers pretty.
Import ListNotations.
Open Scope Z_scope.

(** ** Binary64 *)

Module F64.

Definition prec : Z := 53.
Definition emax : Z := 1024.

Abbreviation float := spec_float.

Definition add : float -> float -> float := SFadd prec emax.
Definition sub : float -> float -> float := SFsub prec emax.
Definition mul : float -> float -> float := SFmul prec emax.
Definition div : float -> float -> float := SFdiv prec emax.
Definition leb : float -> float -> bool := SFleb.
Definition ltb : float -> float -> bool := SFltb.
Definition eqb : float -> float -> bool := SFeqb.
Definition valid : float -> bool := valid_binary prec emax.

(** Conversion of an integer, rounding to nearest even (C's [(double)n],
    numpy's [astype(float)]). *)
Definition of_Z (z : Z) : float := binary_normalize prec emax z 0 false.

(** A decimal literal [n/d] ([d] a power of ten, both exactly
    representable): Python reads it as the nearest binary64, which is the
    correctly rounded quotient. *)
Definition dec (n d : Z) : float := div (of_Z n) (of_Z d).

Definition zero : float := S754_zero false.
Definition one : float := of_Z 1.
Definition nan : float := S754_nan.

Definition is_nan (x : float) : bool :=
  match x with S754_nan => true | _ => false end.

Definition is_inf (x : float) : bool :=
  match x with S754_infinity _ => true | _ => false end.

Definition is_zero (x : float) : bool :=
  match x with S754_zero _ => true | _ => false end.

(** C's [rint] in the default rounding mode: the nearest integer, ties to
    even; the sign is kept, so [rint (-0.3) = -0.0]. *)
Definition rint (x : float) : float :=
  match x with
  | S754_finite s m (Zneg n) =>
      let '(mrs, _) :=
        shr (shr_record_of_loc (Zpos m) loc_Exact) (Zneg n) (Zpos n) in
      let k := round_nearest_even (shr_m mrs) (loc_of_shr_record mrs) in
      binary_normalize prec emax (cond_Zopp s k) 0 s
  | _ => x
  end.

(** [np.round(x, decimals)] for [decimals >= 0]: numpy scales, rounds to an
    integer and scales back, [true_divide(rint(x * 10**d), 10**d)]. *)
Definition np_round (x : float) (decimals : Z) : float :=
  let f := of_Z (10 ^ decimals) in
  div (rint (mul x f)) f.

(** Python's [max(a, b)] on floats: the first argument unless the second
    compares greater. *)
Definition py_max (a b : float) : float := if ltb a b then b else a.

(** One step of pandas' compensated (Kahan) summation, as in
    [group_sum]/[nansum]: missing values are skipped, and a compensation
    that has become NaN is reset. *)
Definition kahan_step (acc : float * float) (v : float) : float * float :=
  let '(sumx, comp) := acc in
  if is_nan v then acc
  else
    let y := sub v comp in
    let t := add sumx y in
    let c := sub (sub t sumx) y in
    (t, if is_nan c then zero else c).

Definition kahan_sum (vs : list float) : float :=
  fst (fold_left kahan_step vs (zero, zero)).

(** [Series.max()]: the largest non-missing value, NaN when there is none. *)
Definition nanmax_opt (vs : list float) : option float :=
  fold_left
    (fun acc v =>
       if is_nan v then acc
       else match acc with
            | None => Some v
            | Some a => Some (if ltb a v then v else a)
            end)
    vs None.

Definition series_max (vs : list float) : float :=
  default nan (nanmax_opt vs).

End F64.

Abbreviation float := spec_float.

(** ** Python values and exceptions *)

Inductive exn : Type :=
| ZeroDivisionError
| OverflowError
| ValueError
| KeyError.

Inductive outcome (A : Type) : Type :=
| Ok (a : A)
| Raise (e : exn).
Arguments Ok {A} a.
Arguments Raise {A} e.

(** Stateful code that may raise: a state [S] is threaded through, and an
    exception ends the computation. *)
Definition Py (S A : Type) : Type := S -> outcome (A * S).

Definition py_ret {S A} (a : A) : Py S A := fun s => Ok (a, s).

Definition py_bind {S A B} (c : Py S A) (k : A -> Py S B) : Py S B :=
  fun s => match c s with
           | Ok (a, s') => k a s'
           | Raise e => Raise e
           end.

Definition py_lift {S A} (o : outcome A) : Py S A :=
  fun s => match o with
           | Ok a => Ok (a, s)
           | Raise e => Raise e
           end.

Definition py_raise {S A} (e : exn) : Py S A := fun _ => Raise e.

Notation "x <~ c ;; k" := (py_bind c (fun x => k))
  (at level 100, c at next level, right associativity).
Notation "c ;;; k" := (py_bind c (fun _ => k))
  (at level 100, right associativity).

(** [a / b] on Python integers: true division, correctly rounded to
    binary64 whatever the size of the operands. *)
Definition exact_of_Z (z : Z) : float :=
  match z with
  | Z0 => S754_zero false
  | Zpos p => S754_finite false p 0
  | Zneg p => S754_finite true p 0
  end.

Definition py_truediv (a b : Z) : outcome float :=
  if b =? 0 then Raise ZeroDivisionError
  else
    let q := F64.div (exact_of_Z a) (exact_of_Z b) in
    if F64.is_inf q then Raise OverflowError else Ok q.

(** [len(x)] and [sum] of a boolean column are Python integers. *)
Definition len {A} (l : list A) : Z := Z.of_nat (length l).
Definition count_true (l : list bool) : Z := len (filter (fun b => b = true) l).

(** ** The six tables (section 3 of the specification) *)

Record school := {
  sc_school_id : Z;
  sc_district_id : Z;
  sc_school_name : string;
  sc_school_level : string;
  sc_urbanicity : string }.

Record student := {
  st_student_id : Z;
  st_birth_year : Z;
  st_grade_level : Z;
  st_gender : string;
  st_race_ethnicity : string;
  st_frpl_flag : Z;
  st_ell_flag : Z;
  st_iep_flag : Z }.

Record enrollment := {
  ss_student_id : Z;
  ss_school_id : Z }.

Record educator := {
  ed_educator_id : Z;
  ed_role : string;
  ed_certification : string;
  ed_years_experience : Z;
  ed_hire_year : Z }.

Record assignment := {
  sf_school_id : Z;
  sf_educator_id : Z;
  sf_school_year : Z;
  sf_fte : float;
  sf_subject_area : string }.

Record assessment := {
  as_student_id : Z;
  as_school_id : Z;
  as_school_year : Z;
  as_term : string;
  as_subject : string;
  as_scale_score : float;
  as_proficient_flag : Z }.

(** ** pandas operations shared by the checker and the analyses *)

Section Pandas.
Context {A : Type} `{EqDecision A}.

(** [Series.isin(values)]. *)
Definition isin (col values : list A) : list bool :=
  map (fun x => bool_decide (x ∈ values)) col.

(** [Series.duplicated()]: marks every occurrence after the first. *)
Fixpoint duplicated_from (seen col : list A) : list bool :=
  match col with
  | [] => []
  | x :: rest => bool_decide (x ∈ seen) :: duplicated_from (x :: seen) rest
  end.
Definition duplicated (col : list A) : list bool := duplicated_from [] col.

(** [Series.is_unique]. *)
Definition is_unique (col : list A) : bool :=
  forallb negb (duplicated col).

(** [Series.nunique()]. *)
Definition nunique (col : list A) : Z := len (remove_dups col).
End Pandas.

(** Group keys of [groupby]: distinct, in increasing order. *)
Fixpoint insert_key (k : Z) (keys : list Z) : list Z :=
  match keys with
  | [] => [k]
  | x :: rest =>
      if k <? x then k :: keys
      else if k =? x then keys
      else x :: insert_key k rest
  end.

Definition unique_sorted (keys : list Z) : list Z :=
  fold_right insert_key [] keys.

(** A series indexed by integer keys. *)
Definition series (V : Type) : Type := list (Z * V).

Definition group {V} (rows : list (Z * V)) (k : Z) : list V :=
  map snd (filter (fun r => fst r =? k) rows).

(** [df.groupby(key)[col].agg()] for an aggregation [agg] of a group's
    values. *)
Definition groupby {V R} (agg : list V -> R) (rows : list (Z * V)) : series R :=
  map (fun k => (k, agg (group rows k))) (unique_sorted (map fst rows)).

Definition series_get {V} (s : series V) (k : Z) : option V :=
  snd <$> find (fun r => fst r =? k) s.

(** [staffing.merge(educators[["educator_id", "role"]], on="educator_id",
    how="left")]: every staffing row once per educator row with its id, in
    order; a staffing row without one keeps a missing role. *)
Definition merge_role (staffing : list assignment) (educators : list educator)
  : list (assignment * option string) :=
  flat_map
    (fun s =>
       match filter (fun e => ed_educator_id e =? sf_educator_id s) educators with
       | [] => [(s, None)]
       | es => map (fun e => (s, Some (ed_role e))) es
       end)
    staffing.

(** Summed FTE of the rows whose role is ["teacher"], per school. *)
Definition teacher_fte_by_school
    (staffing : list assignment) (educators : list educator) : series float :=
  groupby F64.kahan_sum
    (map (fun r => (sf_school_id (fst r), sf_fte (fst r)))
       (filter (fun r => bool_decide (snd r = Some "teacher"))
          (merge_role staffing educators))).

(** Distinct students per school, from the bridge. *)
Definition student_counts_by_school (student_school : list enrollment) : series Z :=
  groupby nunique
    (map (fun r => (ss_school_id r, ss_student_id r)) student_school).

(** [Series.replace(0, np.nan)]. *)
Definition replace_zero_nan (x : float) : float :=
  if F64.is_zero x then F64.nan else x.

(** [Series.replace([np.inf, -np.inf], np.nan)]. *)
Definition replace_inf_nan (x : float) : float :=
  if F64.is_inf x then F64.nan else x.

(** A missing cell reads as NaN. *)
Definition cell (o : option float) : float := default F64.nan o.

(** Index-aligned division of two series, [a / b]: the result is indexed by
    the sorted union of both indexes, and a key missing on either side
    contributes NaN. The integer counts are converted to binary64. *)
Definition series_div (a : series Z) (b : series float) : series float :=
  map (fun k => (k, F64.div (cell (F64.of_Z <$> series_get a k))
                            (cell (series_get b k))))
      (unique_sorted (map fst a ++ map fst b)).

(** [np.nanmax]: raises on an empty array, ignores NaN otherwise. *)
Definition np_nanmax (vs : list float) : outcome float :=
  match vs with
  | [] => Raise ValueError
  | _ => Ok (F64.series_max vs)
  end.

(** ** [src/quality_checks.py] *)

Inductive value : Type :=
| VInt (z : Z)
| VFloat (x : float)
| VNone.

Record check := {
  name : string;
  passed : bool;
  detail : list (string * value) }.

(** The [results] dictionary: the list under ["checks"] and the dictionary
    under ["summary"]. *)
Record results := {
  checks : list check;
  summary : list (string * Z) }.

(** Computations of the checker: they may raise, and they update [results]. *)
Definition QA : Type -> Type := Py results.

(** [results["checks"].append({"name": ..., "passed": bool(passed),
    "detail": ...})]. *)
Definition add_check (nm : string) (ok : bool) (dt : list (string * value))
  : QA unit :=
  fun r => Ok (tt, {| checks := checks r ++ [{| name := nm; passed := ok; detail := dt |}];
                      summary := summary r |}).

Definition set_summary : QA unit :=
  fun r => Ok (tt, {| checks := checks r;
                      summary :=
                        [("total_checks", len (checks r));
                         ("passed_checks", len (filter (fun c => passed c) (checks r)));
                         ("failed_checks", len (filter (fun c => negb (passed c)) (checks r)))] |}).

Definition run_quality_checks
    (schools : list school) (students : list student)
    (student_school : list enrollment) (educators : list educator)
    (staffing : list assignment) (assessments : list assessment)
  : outcome results :=
  let body : QA unit :=
    (* 1) Primary key uniqueness *)
    add_check "students_unique_id"
      (is_unique (map st_student_id students))
      [("duplicate_count", VInt (count_true (duplicated (map st_student_id students))))] ;;;
    add_check "educators_unique_id"
      (is_unique (map ed_educator_id educators))
      [("duplicate_count", VInt (count_true (duplicated (map ed_educator_id educators))))] ;;;
    add_check "schools_unique_id"
      (is_unique (map sc_school_id schools))
      [("duplicate_count", VInt (count_true (duplicated (map sc_school_id schools))))] ;;;
    (* 2) Referential integrity: [~] applies to the sum, not to the mask *)
    let missing_school_in_map :=
      Z.lnot (count_true (isin (map ss_school_id student_school)
                               (map sc_school_id schools))) in
    add_check "student_school_valid_school_id"
      (missing_school_in_map =? 0)
      [("missing_school_refs", VInt missing_school_in_map)] ;;;
    let missing_student_in_map :=
      Z.lnot (count_true (isin (map ss_student_id student_school)
                               (map st_student_id students))) in
    add_check "student_school_valid_student_id"
      (missing_student_in_map =? 0)
      [("missing_student_refs", VInt missing_student_in_map)] ;;;
    (* 3) Staffing: FTE sanity *)
    let staffing_fte_by_educ :=
      groupby F64.kahan_sum (map (fun r => (sf_educator_id r, sf_fte r)) staffing) in
    let over_1 :=
      filter (fun kv => F64.ltb (F64.dec 105 100) (snd kv)) staffing_fte_by_educ in
    add_check "educator_total_fte_leq_1_05"
      (len over_1 =? 0)
      [("violations", VInt (len over_1));
       ("max_fte", VFloat (F64.series_max (map snd staffing_fte_by_educ)))] ;;;
    (* 4) Certification completeness for teachers *)
    let teachers := filter (fun e => bool_decide (ed_role e = "teacher")) educators in
    let uncert :=
      count_true (map (fun e => bool_decide (ed_certification e = "none")) teachers) in
    uncert_rate <~ py_lift (py_truediv uncert (Z.max 1 (len teachers))) ;;
    add_check "teacher_certification_none_rate_leq_0_02"
      (F64.leb uncert_rate (F64.dec 2 100))
      [("teacher_count", VInt (len teachers));
       ("none_cert_count", VInt uncert);
       ("none_cert_rate", VFloat uncert_rate)] ;;;
    (* 5) Assessment coverage *)
    let spring := filter (fun a => bool_decide (as_term a = "spring")) assessments in
    let cnt := groupby nunique (map (fun a => (as_student_id a, as_subject a)) spring) in
    let missing_subj := count_true (map (fun kv => snd kv <? 2) cnt) in
    add_check "assessment_coverage_two_subjects_spring"
      (missing_subj =? 0)
      [("students_missing_subject", VInt missing_subj)] ;;;
    (* 6) Student-to-teacher ratio per school *)
    let student_counts := student_counts_by_school student_school in
    let teacher_fte := teacher_fte_by_school staffing educators in
    let ratio :=
      map (fun kv => (fst kv, replace_inf_nan (snd kv)))
          (series_div student_counts
             (map (fun kv => (fst kv, replace_zero_nan (snd kv))) teacher_fte)) in
    let extreme := filter (fun kv => F64.ltb (F64.of_Z 35) (snd kv)) ratio in
    max_ratio <~ (if existsb (fun kv => negb (F64.is_nan (snd kv))) ratio
                  then (m <~ py_lift (np_nanmax (map snd ratio)) ;; py_ret (VFloat m))
                  else py_ret VNone) ;;
    add_check "students_per_teacher_fte_leq_35"
      (len extreme =? 0)
      [("extreme_schools", VInt (len extreme)); ("max_ratio", max_ratio)] ;;;
    (* summary *)
    set_summary
  in
  match body {| checks := []; summary := [] |} with
  | Ok (_, r) => Ok r
  | Raise e => Raise e
  end.

(** ** [src/analysis.py] *)

(** [assessments.merge(students, on="student_id", how="left")]: every
    assessment row once per student row with its id, in order; an assessment
    of an unknown student keeps missing student columns. *)
Definition merge_students (assessments : list assessment) (students : list student)
  : list (assessment * option student) :=
  flat_map
    (fun a =>
       match filter (fun s => st_student_id s =? as_student_id a) students with
       | [] => [(a, None)]
       | ss => map (fun s => (a, Some s)) ss
       end)
    assessments.

(** [Series.mean()] of an integer column: the sum, accumulated in binary64,
    over the count; NaN for an empty column. (numpy adds pairwise; on 0/1
    flags every order of additions is exact.) *)
Definition series_mean (vs : list Z) : float :=
  if len vs =? 0 then F64.nan
  else F64.div (fold_left F64.add (map F64.of_Z vs) F64.zero) (F64.of_Z (len vs)).

Record gap_row := {
  gr_subject : string;
  gr_group : string;
  proficiency_group_1 : float;
  proficiency_group_0 : float;
  gap_group0_minus_group1 : float }.

(** [d[col] == v] on a merged row: a missing flag equals nothing. *)
Definition flag_is (col : student -> Z) (v : Z) (r : assessment * option student) : bool :=
  match snd r with
  | Some s => col s =? v
  | None => false
  end.

Definition proficiency_by_subgroup
    (assessments : list assessment) (students : list student) : list gap_row :=
  let df := merge_students assessments students in
  let df := filter (fun r => bool_decide (as_term (fst r) = "spring")) df in
  flat_map
    (fun subj =>
       let d := filter (fun r => bool_decide (as_subject (fst r) = subj)) df in
       map
         (fun gc : string * (student -> Z) =>
            let '(grp, col) := gc in
            let p1 := series_mean (map (fun r => as_proficient_flag (fst r))
                                       (filter (fun r => flag_is col 1 r) d)) in
            let p0 := series_mean (map (fun r => as_proficient_flag (fst r))
                                       (filter (fun r => flag_is col 0 r) d)) in
            {| gr_subject := subj;
               gr_group := grp;
               proficiency_group_1 := p1;
               proficiency_group_0 := p0;
               gap_group0_minus_group1 := F64.sub p0 p1 |})
         [("FRPL", st_frpl_flag); ("ELL", st_ell_flag); ("IEP", st_iep_flag)])
    ["ela"; "math"].

(** A row of the staffing ratio table (columns [school_id], [n_students],
    [teacher_fte], [students_per_teacher_fte]); a missing [n_students] is
    [None], a missing [teacher_fte] is NaN. *)
Record ratio_row := {
  rr_school_id : Z;
  rr_n_students : option Z;
  rr_teacher_fte : float;
  students_per_teacher_fte : float }.

Definition staffing_ratio_table
    (student_school : list enrollment) (staffing : list assignment)
    (educators : list educator) : list ratio_row :=
  let student_counts := student_counts_by_school student_school in
  let teacher_fte := teacher_fte_by_school staffing educators in
  (* pd.concat([...], axis=1): the first index, then the keys only the second has *)
  let index :=
    map fst student_counts ++
    filter (fun k => bool_decide (k ∉ map fst student_counts)) (map fst teacher_fte) in
  map
    (fun k =>
       let n := series_get student_counts k in
       let t := cell (series_get teacher_fte k) in
       {| rr_school_id := k;
          rr_n_students := n;
          rr_teacher_fte := t;
          students_per_teacher_fte :=
            F64.div (cell (F64.of_Z <$> n)) (replace_zero_nan t) |})
    index.

(** [groupby(...).mean()] of an integer column: compensated sum over count. *)
Definition group_mean (vs : list Z) : float :=
  F64.div (F64.kahan_sum (map F64.of_Z vs)) (F64.of_Z (len vs)).

Record ratio_prof_row := {
  rp_ratio : ratio_row;
  avg_proficiency : float }.

Section Correlation.

(** [np.corrcoef(x, y)[0, 1]], numpy's Pearson coefficient of two columns. *)
Variable np_corrcoef : list float -> list float -> float.

(** The frame returned by [ratio_vs_proficiency] together with its
    [attrs["corr_students_per_teacher_vs_proficiency"]] ([None] is Python's
    [None]). *)
Definition ratio_vs_proficiency
    (ratio_tbl : list ratio_row) (assessments : list assessment)
    (student_school : list enrollment) : list ratio_prof_row * option float :=
  let spring := filter (fun a => bool_decide (as_term a = "spring")) assessments in
  let school_prof :=
    groupby group_mean (map (fun a => (as_school_id a, as_proficient_flag a)) spring) in
  let df :=
    map (fun r => {| rp_ratio := r;
                     avg_proficiency := cell (series_get school_prof (rr_school_id r)) |})
        ratio_tbl in
  let valid :=
    filter (fun r => negb (F64.is_nan (students_per_teacher_fte (rp_ratio r)))
                     && negb (F64.is_nan (avg_proficiency r))) df in
  let corr :=
    if 2 <? len valid
    then np_corrcoef (map (fun r => students_per_teacher_fte (rp_ratio r)) valid)
                     (map avg_proficiency valid)
    else F64.nan in
  (df, if F64.eqb corr corr then Some corr else None).

End Correlation.

(** ** [src/generate_data.py] *)

Record GenConfig := {
  seed : Z;
  n_districts : Z;
  n_schools : Z;
  n_students : Z;
  n_educators : Z;
  school_year : Z }.

(** The defaults of the [GenConfig] dataclass. *)
Definition GenConfig_default : GenConfig :=
  {| seed := 7; n_districts := 12; n_schools := 90; n_students := 42000;
     n_educators := 5200; school_year := 2025 |}.

(** The part of [numpy.random.Generator] that [generate_all] calls. Every
    draw consumes generator state; seeding and draws may raise (a negative
    seed or size, an empty population, a sample larger than the population).
    The laws are numpy's documented contracts for the draws that succeed. *)
Class Generator (rng : Type) := {
  (** [np.random.default_rng(seed)]; numpy refuses a negative seed *)
  default_rng : Z -> outcome rng;
  (** [rng.integers(low, high, size)] *)
  integers : Z -> Z -> Z -> rng -> outcome (list Z * rng);
  (** [rng.choice(a, size=size, p=p)], with replacement *)
  choice : forall A : Type, list A -> option (list float) -> Z -> rng -> outcome (list A * rng);
  (** [rng.choice(a)], a single element *)
  choice_one : forall A : Type, list A -> rng -> outcome (A * rng);
  (** [rng.choice(a, size=size, replace=False)] *)
  choice_distinct : forall A : Type, list A -> Z -> rng -> outcome (list A * rng);
  (** [rng.random()] *)
  random : rng -> outcome (float * rng);
  (** [rng.random(size)] *)
  random_n : Z -> rng -> outcome (list float * rng);
  (** [rng.uniform(low, high)] *)
  uniform : float -> float -> rng -> outcome (float * rng);
  (** [rng.normal(loc, scale, size)] *)
  normal : float -> float -> Z -> rng -> outcome (list float * rng);

  (** a sample has the requested size and is drawn from the population *)
  choice_spec : forall A (a : list A) p size g l g',
    choice A a p size g = Ok (l, g') -> len l = size /\ Forall (fun x => x ∈ a) l;
  choice_distinct_len : forall A (a : list A) size g l g',
    choice_distinct A a size g = Ok (l, g') -> len l = size;
  (** a uniform draw is a binary64 number between its bounds; the upper
      bound can be reached by rounding *)
  uniform_spec : forall lo hi g x g',
    uniform lo hi g = Ok (x, g') ->
    F64.valid lo = true -> F64.valid hi = true -> F64.leb lo hi = true ->
    F64.valid x = true /\ F64.leb lo x = true /\ F64.leb x hi = true }.

Arguments choice {rng _ A} a p size g.
Arguments choice_one {rng _ A} a g.
Arguments choice_distinct {rng _ A} a size g.

(** The six frames handed to [to_csv] at the end of [generate_all]. *)
Record tables := {
  t_schools : list school;
  t_students : list student;
  t_student_school : list enrollment;
  t_educators : list educator;
  t_staffing : list assignment;
  t_assessments : list assessment }.

(** [np.arange(lo, hi)]. *)
Definition arange (lo hi : Z) : list Z :=
  map (fun i => lo + Z.of_nat i) (seq 0 (Z.to_nat (hi - lo))).

(** [pd.DataFrame({...})], [pd.Series(values, index=...)] and
    [df[col] = values], for columns already zipped into [frame]: pandas
    raises unless all columns have one length ([lens]). *)
Definition DataFrame {R} (lens : list Z) (frame : R) : outcome R :=
  match lens with
  | [] => Ok frame
  | n :: rest => if forallb (Z.eqb n) rest then Ok frame else Raise ValueError
  end.

(** [np.empty(n, dtype=int)]: a buffer that is not initialised; [heap]
    stands for whatever the allocator left in it. *)
Definition np_empty (heap : nat -> Z) (n : Z) : outcome (list Z) :=
  if n <? 0 then Raise ValueError
  else Ok (map heap (seq 0 (Z.to_nat n))).

(** [np.where(mask)[0]]. *)
Fixpoint np_where_from (i : nat) (mask : list bool) : list nat :=
  match mask with
  | [] => []
  | b :: rest => if b then i :: np_where_from (S i) rest else np_where_from (S i) rest
  end.
Definition np_where (mask : list bool) : list nat := np_where_from 0 mask.

(** [a[idx] = vals] for an index array and a value array of one length. *)
Definition assign_at (a : list Z) (idx : list nat) (vals : list Z) : outcome (list Z) :=
  if len vals =? len idx
  then Ok (fold_left (fun acc iv => <[fst iv := snd iv]> acc) (zip idx vals) a)
  else Raise ValueError.

(** [Series.between(lo, hi)], both ends included. *)
Definition between (lo hi x : Z) : bool := (lo <=? x) && (x <=? hi).

Definition dict_get {V} (d : list (string * V)) (k : string) : outcome V :=
  match find (fun kv => bool_decide (fst kv = k)) d with
  | Some kv => Ok (snd kv)
  | None => Raise KeyError
  end.

(** Element-wise [x + y] of two columns of one length. *)
Definition vec_add (x y : list float) : outcome (list float) :=
  if len x =? len y then Ok (zip_with F64.add x y) else Raise ValueError.

(** [x.astype(int)] on binary64, truncating; out of range (and NaN) give
    the smallest int64, as the x86-64 conversion does. *)
Definition to_int64 (x : float) : Z :=
  match x with
  | S754_zero _ => 0
  | S754_finite s m e =>
      let v := cond_Zopp s (Z.shiftl (Zpos m) e) in
      if (- 2 ^ 63 <=? v) && (v <? 2 ^ 63) then v else - 2 ^ 63
  | _ => - 2 ^ 63
  end.

(** [np.clip(x, lo, hi)]: [minimum(maximum(x, lo), hi)]. *)
Definition np_clip (lo hi x : Z) : Z := Z.min (Z.max x lo) hi.

Definition bool_to_int (b : bool) : Z := if b then 1 else 0.

Definition subject_pool : list string :=
  ["math"; "ela"; "science"; "social_studies"; "sped"; "counseling"; "admin"].

Section GenerateAll.

Context {rng : Type} `{Generator rng}.

(** The loop [for lvl in ["elementary", "middle", "high"]]: the students of
    the level's grade band get a school drawn among the schools of the
    level, written into [student_school] at their positions. *)
Fixpoint assign_schools (lvls : list string) (schools : list school)
    (level_mask : list (string * list bool)) (student_school : list Z)
  : Py rng (list Z) :=
  match lvls with
  | [] => py_ret student_school
  | lvl :: rest =>
      let eligible_schools :=
        map sc_school_id
            (filter (fun s => bool_decide (sc_school_level s = lvl)) schools) in
      mask <~ py_lift (dict_get level_mask lvl) ;;
      let idx := np_where mask in
      drawn <~ choice eligible_schools None (len idx) ;;
      student_school <~ py_lift (assign_at student_school idx drawn) ;;
      assign_schools rest schools level_mask student_school
  end.

(** The loop [for j, sid in enumerate(schools_for_e)] of one educator. *)
Fixpoint fte_loop (n_assign educator_id year : Z) (js : list (Z * Z))
    (remaining : float) : Py rng (list assignment) :=
  match js with
  | [] => py_ret []
  | (j, sid) :: rest =>
      fte <~ (if j =? n_assign - 1 then py_ret remaining
              else (x <~ uniform (F64.dec 3 10) remaining ;;
                    py_ret (F64.np_round x 2))) ;;
      let remaining := F64.py_max F64.zero (F64.sub remaining fte) in
      subj <~ choice_one subject_pool ;;
      rows <~ fte_loop n_assign educator_id year rest remaining ;;
      py_ret ({| sf_school_id := sid;
                 sf_educator_id := educator_id;
                 sf_school_year := year;
                 sf_fte := fte;
                 sf_subject_area := subj |} :: rows)
  end.

(** The body of [for _, e in educators.iterrows()]: the rows appended to
    [assignments] for educator [e]. *)
Definition staffing_of_educator (school_ids : list Z) (year : Z) (e : educator)
  : Py rng (list assignment) :=
  r <~ random ;;
  let n_assign := if F64.ltb r (F64.dec 88 100) then 1 else 2 in
  schools_for_e <~ choice_distinct school_ids n_assign ;;
  fte_loop n_assign (ed_educator_id e) year
           (zip (arange 0 (len schools_for_e)) schools_for_e) F64.one.

Fixpoint staffing_loop (school_ids : list Z) (year : Z) (educators : list educator)
    (assignments : list assignment) : Py rng (list assignment) :=
  match educators with
  | [] => py_ret assignments
  | e :: rest =>
      rows <~ staffing_of_educator school_ids year e ;;
      staffing_loop school_ids year rest (assignments ++ rows)
  end.

(** [prof_flag(score, grade_level)]: the grade-specific threshold. *)
Definition prof_flag (score : float) (grade_level : Z) : Z :=
  let thr := F64.add (F64.of_Z 255)
                     (F64.mul (F64.of_Z (grade_level - 3)) (F64.dec 65 10)) in
  bool_to_int (F64.leb thr score).

(** One of the two frames of [assessment_rows]. *)
Definition assessment_frame (students : list student) (student_school : list Z)
    (year : Z) (subj : string) (scores : list float) : list assessment :=
  map (fun r : student * (Z * float) =>
         let '(s, (sid, score)) := r in
         {| as_student_id := st_student_id s;
            as_school_id := sid;
            as_school_year := year;
            as_term := "spring";
            as_subject := subj;
            as_scale_score := F64.np_round score 2;
            as_proficient_flag := prof_flag score (st_grade_level s) |})
      (zip students (zip student_school scores)).

(** [generate_all] is one long function; its commented blocks ([# schools],
    [# students], ...) are embedded one definition each and composed in
    [generate_from], in the order of the source. *)

(** [# schools] *)
Definition gen_schools (cfg : GenConfig) : Py rng (list school) :=
  district_ids <~ integers 1 (n_districts cfg + 1) (n_schools cfg) ;;
  levels <~ choice ["elementary"; "middle"; "high"]
                   (Some [F64.dec 5 10; F64.dec 28 100; F64.dec 22 100])
                   (n_schools cfg) ;;
  urban <~ choice ["urban"; "suburban"; "rural"]
                  (Some [F64.dec 34 100; F64.dec 46 100; F64.dec 20 100])
                  (n_schools cfg) ;;
  let school_id := arange 1001 (1001 + n_schools cfg) in
  let school_name :=
    map (fun i => "School " +:+ pretty i) (arange 1 (n_schools cfg + 1)) in
  py_lift
    (DataFrame [len school_id; len district_ids; len school_name; len levels; len urban]
       (map (fun r : Z * (Z * (string * (string * string))) =>
               let '(i, (d, (nm, (lv, u)))) := r in
               {| sc_school_id := i; sc_district_id := d; sc_school_name := nm;
                  sc_school_level := lv; sc_urbanicity := u |})
            (zip school_id (zip district_ids (zip school_name (zip levels urban)))))).

(** [# students] (without the [school_id] column, which is added below and
    dropped again before [students.csv] is written) *)
Definition gen_students (cfg : GenConfig) : Py rng (list student) :=
  grade <~ choice (arange 3 13) None (n_students cfg) ;;
  frpl_draw <~ random_n (n_students cfg) ;;
  let frpl := map (fun x => F64.ltb x (F64.dec 42 100)) frpl_draw in
  ell_draw <~ random_n (n_students cfg) ;;
  let ell := map (fun x => F64.ltb x (F64.dec 12 100)) ell_draw in
  iep_draw <~ random_n (n_students cfg) ;;
  let iep := map (fun x => F64.ltb x (F64.dec 14 100)) iep_draw in
  gender <~ choice ["F"; "M"; "X"]
                   (Some [F64.dec 49 100; F64.dec 49 100; F64.dec 2 100])
                   (n_students cfg) ;;
  race <~ choice ["White"; "Black"; "Hispanic"; "Asian"; "Multi"; "Other"]
                 (Some [F64.dec 49 100; F64.dec 22 100; F64.dec 17 100;
                        F64.dec 6 100; F64.dec 4 100; F64.dec 2 100])
                 (n_students cfg) ;;
  let student_id := arange 2000001 (2000001 + n_students cfg) in
  birth_year <~ integers 2007 2016 (n_students cfg) ;;
  py_lift
    (DataFrame [len student_id; len birth_year; len grade; len gender; len race;
                len frpl; len ell; len iep]
       (map (fun r : Z * (Z * (Z * (string * (string * (bool * (bool * bool)))))) =>
               let '(i, (by_, (g, (ge, (ra, (f, (e, p))))))) := r in
               {| st_student_id := i; st_birth_year := by_; st_grade_level := g;
                  st_gender := ge; st_race_ethnicity := ra;
                  st_frpl_flag := bool_to_int f; st_ell_flag := bool_to_int e;
                  st_iep_flag := bool_to_int p |})
            (zip student_id (zip birth_year (zip grade (zip gender (zip race
              (zip frpl (zip ell iep))))))))).

(** [# assign students to schools]: the [students["school_id"]] column. *)
Definition gen_student_school (heap : nat -> Z) (cfg : GenConfig)
    (schools : list school) (students : list student) : Py rng (list Z) :=
  let level_mask :=
    [("elementary", map (fun s => between 3 5 (st_grade_level s)) students);
     ("middle", map (fun s => between 6 8 (st_grade_level s)) students);
     ("high", map (fun s => between 9 12 (st_grade_level s)) students)] in
  student_school <~ py_lift (np_empty heap (n_students cfg)) ;;
  student_school <~ assign_schools ["elementary"; "middle"; "high"]
                                   schools level_mask student_school ;;
  (* students["school_id"] = student_school *)
  py_lift (DataFrame [len students; len student_school] student_school).

(** [# educators] *)
Definition gen_educators (cfg : GenConfig) : Py rng (list educator) :=
  role <~ choice ["teacher"; "counselor"; "admin"]
                 (Some [F64.dec 83 100; F64.dec 10 100; F64.dec 7 100])
                 (n_educators cfg) ;;
  cert <~ choice ["standard"; "provisional"; "none"]
                 (Some [F64.dec 82 100; F64.dec 14 100; F64.dec 4 100])
                 (n_educators cfg) ;;
  exp_draw <~ normal (F64.dec 85 10) (F64.of_Z 6) (n_educators cfg) ;;
  let years_exp := map (fun x => np_clip 0 35 (to_int64 (F64.rint x))) exp_draw in
  let hire_year := map (fun y => np_clip 1995 (school_year cfg) (school_year cfg - y))
                       years_exp in
  let educator_id := arange 3000001 (3000001 + n_educators cfg) in
  py_lift
    (DataFrame [len educator_id; len role; len cert; len years_exp; len hire_year]
       (map (fun r : Z * (string * (string * (Z * Z))) =>
               let '(i, (ro, (ce, (y, h)))) := r in
               {| ed_educator_id := i; ed_role := ro; ed_certification := ce;
                  ed_years_experience := y; ed_hire_year := h |})
            (zip educator_id (zip role (zip cert (zip years_exp hire_year)))))).

(** [# staffing assignments] *)
Definition gen_staffing (cfg : GenConfig) (schools : list school)
    (educators : list educator) : Py rng (list assignment) :=
  staffing_loop (map sc_school_id schools) (school_year cfg) educators [].

(** [# assessments: spring ELA + Math for each student] *)
Definition gen_assessments (cfg : GenConfig) (schools : list school)
    (students : list student) (student_school : list Z) : Py rng (list assessment) :=
  let school_ids := map sc_school_id schools in
  effect_draw <~ normal (F64.of_Z 0) (F64.of_Z 8) (n_schools cfg) ;;
  school_effect <~ py_lift
    (DataFrame [len effect_draw; len school_ids] (zip school_ids effect_draw)) ;;
  let base :=
    map (fun s => F64.add (F64.of_Z 250)
                          (F64.mul (F64.of_Z (st_grade_level s - 3)) (F64.dec 75 10)))
        students in
  let disadvantage :=
    map (fun s =>
           F64.add (F64.add (F64.mul (F64.of_Z (st_frpl_flag s)) (F64.of_Z (-6)))
                            (F64.mul (F64.of_Z (st_ell_flag s)) (F64.of_Z (-8))))
                   (F64.mul (F64.of_Z (st_iep_flag s)) (F64.of_Z (-10))))
        students in
  let se := map (fun sid => cell (series_get school_effect sid)) student_school in
  noise <~ normal (F64.of_Z 0) (F64.of_Z 18) (n_students cfg) ;;
  common <~ py_lift (vec_add (zip_with F64.add base disadvantage) se) ;;
  common <~ py_lift (vec_add common noise) ;;
  ela_noise <~ normal (F64.of_Z 0) (F64.of_Z 3) (n_students cfg) ;;
  ela_score <~ py_lift (vec_add common ela_noise) ;;
  math_noise <~ normal (F64.of_Z 0) (F64.of_Z 3) (n_students cfg) ;;
  math_score <~ py_lift (vec_add common math_noise) ;;
  py_ret (assessment_frame students student_school (school_year cfg) "ela" ela_score ++
          assessment_frame students student_school (school_year cfg) "math" math_score).

(** [student_school.csv]: the id and school columns of [students]. *)
Definition bridge (students : list student) (student_school : list Z) : list enrollment :=
  map (fun r : student * Z =>
         {| ss_student_id := st_student_id (fst r); ss_school_id := snd r |})
      (zip students student_school).

Definition generate_from (heap : nat -> Z) (cfg : GenConfig) : Py rng tables :=
  schools <~ gen_schools cfg ;;
  students <~ gen_students cfg ;;
  student_school <~ gen_student_school heap cfg schools students ;;
  educators <~ gen_educators cfg ;;
  staffing <~ gen_staffing cfg schools educators ;;
  assessments <~ gen_assessments cfg schools students student_school ;;
  (* write raw CSVs *)
  py_ret {| t_schools := schools;
            t_students := students;
            t_student_school := bridge students student_school;
            t_educators := educators;
            t_staffing := staffing;
            t_assessments := assessments |}.

(** [generate_all(out_dir, cfg)]: the generator is seeded from the
    configuration; the result is the six frames it writes under [out_dir]. *)
Definition generate_all (heap : nat -> Z) (cfg : GenConfig) : outcome tables :=
  match default_rng (seed cfg) with
  | Ok rng0 =>
      match generate_from heap cfg rng0 with
      | Ok (t, _) => Ok t
      | Raise e => Raise e
      end
  | Raise e => Raise e
  end.

End GenerateAll.

(** ** A small generator that implements the interface

    A linear congruential generator, used to run [generate_all] on concrete
    configurations. It is not numpy's PCG64; it only honours the same
    contracts. *)

Module Lcg.

Definition lcg_default_rng (seed : Z) : outcome Z :=
  if seed <? 0 then Raise ValueError else Ok (seed mod 2 ^ 64).

Definition step (g : Z) : Z :=
  (g * 6364136223846793005 + 1442695040888963407) mod 2 ^ 64.

Definition draw (g : Z) : Z * Z :=
  let g' := step g in (g' / 2 ^ 33, g').

Fixpoint draws (n : nat) (g : Z) : list Z * Z :=
  match n with
  | O => ([], g)
  | S k =>
      let '(x, g1) := draw g in
      let '(xs, g2) := draws k g1 in
      (x :: xs, g2)
  end.

Definition sized {A} (size : Z) (f : list Z -> list A) (g : Z) : outcome (list A * Z) :=
  if size <? 0 then Raise ValueError
  else let '(xs, g') := draws (Z.to_nat size) g in Ok (f xs, g').

Definition pick {A} (a : list A) (d : A) (x : Z) : A :=
  nth (Z.to_nat (x mod len a)) a d.

Definition lcg_integers (lo hi size : Z) (g : Z) : outcome (list Z * Z) :=
  if hi <=? lo then Raise ValueError
  else sized size (map (fun x => lo + x mod (hi - lo))) g.

Definition lcg_choice (A : Type) (a : list A) (p : option (list float)) (size : Z)
    (g : Z) : outcome (list A * Z) :=
  match a with
  | [] => if size =? 0 then Ok ([], g) else Raise ValueError
  | d :: _ => sized size (map (pick a d)) g
  end.

Definition lcg_choice_one (A : Type) (a : list A) (g : Z) : outcome (A * Z) :=
  match a with
  | [] => Raise ValueError
  | d :: _ => let '(x, g') := draw g in Ok (pick a d x, g')
  end.

Definition lcg_choice_distinct (A : Type) (a : list A) (size : Z) (g : Z)
  : outcome (list A * Z) :=
  if (size <? 0) || (len a <? size) then Raise ValueError
  else let '(x, g') := draw g in
       Ok (take (Z.to_nat size) (rotate (Z.to_nat (x mod Z.max 1 (len a))) a), g').

Definition unit_float (x : Z) : float := F64.dec (x mod 100) 100.

Definition lcg_random (g : Z) : outcome (float * Z) :=
  let '(x, g') := draw g in Ok (unit_float x, g').

Definition lcg_random_n (size : Z) (g : Z) : outcome (list float * Z) :=
  sized size (map unit_float) g.

Definition lcg_uniform (lo hi : float) (g : Z) : outcome (float * Z) :=
  let '(x, g') := draw g in Ok (if Z.even x then lo else hi, g').

Definition lcg_normal (loc scale : float) (size : Z) (g : Z)
  : outcome (list float * Z) :=
  sized size
        (map (fun x => F64.add loc (F64.mul scale (F64.dec (x mod 41 - 20) 10)))) g.

End Lcg.

(** ** Vocabulary of the statements *)

(** The names of the battery, in the order the checks are appended. *)
Definition battery : list string :=
  ["students_unique_id"; "educators_unique_id"; "schools_unique_id";
   "student_school_valid_school_id"; "student_school_valid_student_id";
   "educator_total_fte_leq_1_05"; "teacher_certification_none_rate_leq_0_02";
   "assessment_coverage_two_subjects_spring"; "students_per_teacher_fte_leq_35"].

(** The students of school [k] in the bridge, and the FTE rows of its
    teachers. *)
Definition students_of (student_school : list enrollment) (k : Z) : list Z :=
  group (map (fun r => (ss_school_id r, ss_student_id r)) student_school) k.

Definition teacher_rows_of (staffing : list assignment) (educators : list educator)
    (k : Z) : list float :=
  group (map (fun r => (sf_school_id (fst r), sf_fte (fst r)))
             (filter (fun r => bool_decide (snd r = Some "teacher"))
                     (merge_role staffing educators))) k.

(** The rows of the joined frame that survive [dropna]: both the ratio and
    the school's average proficiency are present. *)
Definition both_present (r : ratio_prof_row) : bool :=
  negb (F64.is_nan (students_per_teacher_fte (rp_ratio r)))
  && negb (F64.is_nan (avg_proficiency r)).

(** The schools a student of level [lvl] can be drawn from. *)
Definition eligible (schools : list school) (lvl : string) : list Z :=
  map sc_school_id (filter (fun s => bool_decide (sc_school_level s = lvl)) schools).

(** The FTE values of one educator's rows, in order: a single 1.0, or a
    two-decimal rounding of a draw in [0.3, 1.0] followed by what is left of
    the budget, floored at zero. *)
Definition fte_split (fs : list float) : Prop :=
  fs = [F64.one] \/
  exists x,
    F64.valid x = true /\ F64.leb (F64.dec 3 10) x = true /\ F64.leb x F64.one = true /\
    fs = [F64.np_round x 2;
          F64.py_max F64.zero (F64.sub F64.one (F64.np_round x 2))].

(** Rows for concrete tables. *)
Definition enrol (student school : Z) : enrollment :=
  {| ss_student_id := student; ss_school_id := school |}.

Definition staff (school educator : Z) (fte : float) : assignment :=
  {| sf_school_id := school; sf_educator_id := educator; sf_school_year := 2025;
     sf_fte := fte; sf_subject_area := "math" |}.

Definition person (id : Z) (role cert : string) : educator :=
  {| ed_educator_id := id; ed_role := role; ed_certification := cert;
     ed_years_experience := 5; ed_hire_year := 2020 |}.

(** * Properties *)

(** ** The small generator honours the interface *)

Lemma draws_length n g : length (fst (Lcg.draws n g)) = n.
Proof.
  revert g. induction n as [|n IH]; intros g; cbn [Lcg.draws]; [reflexivity|].
  destruct (Lcg.draw g) as [x g1]. specialize (IH g1).
  destruct (Lcg.draws n g1) as [xs g2]. cbn [fst length] in *. congruence.
Qed.

Lemma sized_length {A} size (f : list Z -> list A) g l g' :
  (forall xs, length (f xs) = length xs) ->
  Lcg.sized size f g = Ok (l, g') -> len l = size.
Proof.
  intros Hf. unfold Lcg.sized. destruct (Z.ltb_spec size 0); [discriminate|].
  pose proof (draws_length (Z.to_nat size) g) as Hd.
  destruct (Lcg.draws (Z.to_nat size) g) as [xs g2]. simpl in Hd.
  intros [= <- <-]. unfold len. rewrite Hf, Hd. lia.
Qed.

Lemma pick_elem {A} (a : list A) d x : a <> [] -> Lcg.pick a d x ∈ a.
Proof.
  intros Ha. unfold Lcg.pick. apply list_elem_of_In, nth_In.
  assert (0 < len a) by (unfold len; destruct a; [congruence | simpl; lia]).
  pose proof (Z.mod_pos_bound x (len a) ltac:(lia)). unfold len in *. lia.
Qed.

Lemma lcg_choice_spec A (a : list A) p size g l g' :
  Lcg.lcg_choice A a p size g = Ok (l, g') ->
  len l = size /\ Forall (fun x => x ∈ a) l.
Proof.
  unfold Lcg.lcg_choice. destruct a as [|d a'].
  - destruct (Z.eqb_spec size 0); [|discriminate].
    intros [= <- <-]. subst. split; [reflexivity | constructor].
  - intros Hs. split.
    + eapply sized_length; [|exact Hs]. intros xs. apply length_map.
    + unfold Lcg.sized in Hs. destruct (size <? 0); [discriminate|].
      destruct (Lcg.draws (Z.to_nat size) g) as [xs g2].
      injection Hs as <- <-. apply Forall_forall. intros y Hy.
      apply list_elem_of_fmap in Hy as (x & -> & _).
      apply pick_elem. discriminate.
Qed.

Lemma lcg_choice_distinct_len A (a : list A) size g l g' :
  Lcg.lcg_choice_distinct A a size g = Ok (l, g') -> len l = size.
Proof.
  unfold Lcg.lcg_choice_distinct.
  destruct (Z.ltb_spec size 0); simpl; [discriminate|].
  destruct (Z.ltb_spec (len a) size); [discriminate|].
  destruct (Lcg.draw g) as [x g1]. intros [= <- <-].
  unfold len in *. rewrite length_take, length_rotate. lia.
Qed.

Lemma leb_refl x : F64.is_nan x = false -> F64.leb x x = true.
Proof.
  destruct x as [s|s| |s m e]; simpl; try discriminate; intros _;
    unfold F64.leb, SFleb; simpl.
  - reflexivity.
  - destruct s; reflexivity.
  - rewrite Z.compare_refl, Pos.compare_cont_refl. destruct s; reflexivity.
Qed.

Lemma leb_not_nan x y : F64.leb x y = true ->
  F64.is_nan x = false /\ F64.is_nan y = false.
Proof.
  unfold F64.leb, SFleb. destruct x, y; simpl; intros; try discriminate; auto.
Qed.

Lemma lcg_uniform_spec lo hi g x g' :
  Lcg.lcg_uniform lo hi g = Ok (x, g') ->
  F64.valid lo = true -> F64.valid hi = true -> F64.leb lo hi = true ->
  F64.valid x = true /\ F64.leb lo x = true /\ F64.leb x hi = true.
Proof.
  unfold Lcg.lcg_uniform. destruct (Lcg.draw g) as [d g1].
  intros [= <- <-] Hlo Hhi Hle. destruct (leb_not_nan _ _ Hle) as [Hn1 Hn2].
  destruct (Z.even d); auto using leb_refl.
Qed.

#[export] Instance lcg_generator : Generator Z := {|
  default_rng := Lcg.lcg_default_rng;
  integers := Lcg.lcg_integers;
  choice := Lcg.lcg_choice;
  choice_one := Lcg.lcg_choice_one;
  choice_distinct := Lcg.lcg_choice_distinct;
  random := Lcg.lcg_random;
  random_n := Lcg.lcg_random_n;
  uniform := Lcg.lcg_uniform;
  normal := Lcg.lcg_normal;
  choice_spec := lcg_choice_spec;
  choice_distinct_len := lcg_choice_distinct_len;
  uniform_spec := lcg_uniform_spec |}.

(** ** Binary64 rounding

    Facts about [SpecFloat]'s rounding that the numerical properties need: the
    shift [shr] divides the mantissa, a rounded result in the normal range
    is the truncated mantissa or its successor, and a quotient that is at
    most one does not overflow. *)

Lemma digits2_pos_size p : digits2_pos p = Pos.size p.
Proof. induction p; simpl; congruence. Qed.

Lemma Zdigits2_bounds m : 0 < m -> 2 ^ (Zdigits2 m - 1) <= m < 2 ^ Zdigits2 m.
Proof.
  destruct m as [|p|p]; try lia. intros _. simpl. rewrite digits2_pos_size.
  pose proof (Pos.size_gt p) as Hgt. pose proof (Pos.size_le p) as Hle.
  apply Pos2Z.pos_lt_pos in Hgt. apply Pos2Z.pos_le_pos in Hle.
  rewrite Pos2Z.inj_pow in Hgt, Hle.
  replace (Z.pos (Pos.size p)) with (Z.succ (Z.pos (Pos.size p) - 1)) in Hle by lia.
  rewrite Z.pow_succ_r in Hle by lia. lia.
Qed.

Lemma Zdigits2_nonneg m : 0 <= Zdigits2 m.
Proof. destruct m; simpl; lia. Qed.

Lemma Zdigits2_le m k : 0 <= m -> 0 <= k -> m < 2 ^ k -> Zdigits2 m <= k.
Proof.
  intros Hm Hk Hlt. destruct (Z.eq_dec m 0) as [->|Hne]; [simpl; lia|].
  destruct (Zdigits2_bounds m ltac:(lia)) as [Hlo _].
  destruct (Z.le_gt_cases (Zdigits2 m) k) as [|Hgt]; [assumption|].
  assert (2 ^ k <= 2 ^ (Zdigits2 m - 1)) by (apply Z.pow_le_mono_r; lia). lia.
Qed.

Lemma Zdigits2_unique m d : 0 < d -> 2 ^ (d - 1) <= m < 2 ^ d -> Zdigits2 m = d.
Proof.
  intros Hd [Hlo Hhi]. assert (0 < m) by (pose proof (Z.pow_pos_nonneg 2 (d - 1)); lia).
  destruct (Zdigits2_bounds m ltac:(lia)) as [Hlo' Hhi'].
  pose proof (Zdigits2_le m d ltac:(lia) ltac:(lia) Hhi).
  destruct (Z.le_gt_cases d (Zdigits2 m)) as [|Hgt]; [lia|].
  assert (2 ^ Zdigits2 m <= 2 ^ (d - 1)) by (apply Z.pow_le_mono_r; lia). lia.
Qed.

Lemma iter_pos_nat {A} (f : A -> A) p x :
  SpecFloat.iter_pos f p x = @Nat.iter (Pos.to_nat p) A f x.
Proof.
  revert x. induction p as [p IH|p IH|]; intros x.
  - rewrite Pos2Nat.inj_xI.
    replace (S (2 * Pos.to_nat p))%nat with (Pos.to_nat p + (Pos.to_nat p + 1))%nat by lia.
    rewrite !Nat.iter_add. cbn [SpecFloat.iter_pos]. rewrite !IH. reflexivity.
  - rewrite Pos2Nat.inj_xO.
    replace (2 * Pos.to_nat p)%nat with (Pos.to_nat p + Pos.to_nat p)%nat by lia.
    rewrite Nat.iter_add. cbn [SpecFloat.iter_pos]. rewrite !IH. reflexivity.
  - reflexivity.
Qed.

Lemma shr_1_m mrs : 0 <= shr_m mrs -> shr_m (shr_1 mrs) = shr_m mrs / 2.
Proof.
  destruct mrs as [m r s]. cbn [shr_m]. intros Hm.
  destruct m as [|[p|p|]|p]; cbn [shr_1 shr_m]; try lia.
  - reflexivity.
  - apply Z.div_unique with (r := 1); lia.
  - apply Z.div_unique with (r := 0); lia.
  - reflexivity.
Qed.

Lemma shr_iter_m n mrs :
  0 <= shr_m mrs -> shr_m (@Nat.iter n _ shr_1 mrs) = shr_m mrs / 2 ^ Z.of_nat n.
Proof.
  intros Hm. induction n as [|n IH].
  - simpl. rewrite Z.div_1_r. reflexivity.
  - rewrite Nat2Z.inj_succ, Z.pow_succ_r by lia. simpl.
    rewrite shr_1_m; rewrite IH.
    + rewrite Z.div_div by lia. f_equal. lia.
    + apply Z.div_pos; lia.
Qed.

Lemma shr_m_spec mrs e n :
  0 <= shr_m mrs ->
  shr_m (fst (shr mrs e n)) = (if 0 <? n then shr_m mrs / 2 ^ n else shr_m mrs) /\
  snd (shr mrs e n) = (if 0 <? n then e + n else e).
Proof.
  intros Hm. destruct n as [|p|p]; simpl; auto.
  rewrite iter_pos_nat, shr_iter_m by assumption.
  rewrite positive_nat_Z. auto.
Qed.

Lemma shr_record_of_loc_m m l : shr_m (shr_record_of_loc m l) = m.
Proof. destruct l as [|[]]; reflexivity. Qed.

Lemma round_nearest_even_bounds m l :
  m <= round_nearest_even m l <= m + 1.
Proof. destruct l as [|[]]; simpl; try lia. destruct (Z.even m); lia. Qed.

Lemma fexp64 k : fexp F64.prec F64.emax k = Z.max (k - 53) (-1074).
Proof. reflexivity. Qed.

Lemma Zdigits2_lt_pow m : 0 <= m -> m < 2 ^ Zdigits2 m.
Proof.
  intros Hm. destruct (Z.eq_dec m 0) as [->|]; [reflexivity|].
  apply Zdigits2_bounds. lia.
Qed.

Lemma Zdigits2_le_succ m k : 0 <= m <= 2 ^ k -> 0 <= k -> Zdigits2 m <= k + 1.
Proof.
  intros Hm Hk. apply Zdigits2_le; try lia.
  rewrite Z.pow_add_r by lia. pose proof (Z.pow_pos_nonneg 2 k). lia.
Qed.

Lemma shifted_lt m d n : 0 <= m < 2 ^ d -> 0 <= n <= d -> m / 2 ^ n < 2 ^ (d - n).
Proof.
  intros Hm Hn. apply Z.div_lt_upper_bound; [apply Z.pow_pos_nonneg; lia|].
  rewrite <- Z.pow_add_r by lia. replace (n + (d - n)) with d by lia. lia.
Qed.

Lemma bra_not_inf s mx ex lx :
  0 <= mx -> ex <= 971 -> Zdigits2 mx + ex + 1 <= 1024 ->
  F64.is_inf (binary_round_aux F64.prec F64.emax s mx ex lx) = false.
Proof.
  intros Hm He Hd. unfold binary_round_aux, shr_fexp. rewrite fexp64.
  pose proof (Zdigits2_lt_pow mx Hm) as Hlt.
  pose proof (Zdigits2_nonneg mx) as Hd0.
  set (d := Zdigits2 mx) in *.
  set (n := Z.max (d + ex - 53) (-1074) - ex).
  destruct (shr_m_spec (shr_record_of_loc mx lx) ex n) as [Hm1 He1];
    [rewrite shr_record_of_loc_m; lia|].
  destruct (shr (shr_record_of_loc mx lx) ex n) as [mrs' e']. cbn [fst snd] in *.
  rewrite shr_record_of_loc_m in Hm1.
  pose proof (round_nearest_even_bounds (shr_m mrs') (loc_of_shr_record mrs')) as Hr.
  set (m1 := round_nearest_even (shr_m mrs') (loc_of_shr_record mrs')) in *.
  assert (H1 : 0 <= m1 /\ Zdigits2 m1 + e' <= 1024 /\ e' <= 971).
  { destruct (Z.ltb_spec 0 n) as [Hn|Hn].
    - assert (0 <= shr_m mrs') by (rewrite Hm1; apply Z.div_pos; [lia|apply Z.pow_pos_nonneg; lia]).
      split; [lia|]. split; [|lia].
      destruct (Z.le_gt_cases n d) as [Hnd|Hnd].
      + pose proof (shifted_lt mx d n ltac:(lia) ltac:(lia)) as Hs.
        pose proof (Zdigits2_le_succ m1 (d - n) ltac:(lia) ltac:(lia)). lia.
      + assert (shr_m mrs' = 0).
        { rewrite Hm1. apply Z.div_small. split; [lia|].
          assert (2 ^ d <= 2 ^ n) by (apply Z.pow_le_mono_r; lia). lia. }
        pose proof (Zdigits2_le_succ m1 0 ltac:(simpl; lia) ltac:(lia)). lia.
    - split; [lia|]. split; [|lia].
      pose proof (Zdigits2_le_succ m1 d ltac:(lia) ltac:(lia)). lia. }
  destruct H1 as (Hm1' & Hd1 & He1').
  rewrite fexp64.
  destruct (shr_m_spec (shr_record_of_loc m1 loc_Exact) e'
              (Z.max (Zdigits2 m1 + e' - 53) (-1074) - e')) as [Hm2 He2];
    [rewrite shr_record_of_loc_m; lia|].
  destruct (shr (shr_record_of_loc m1 loc_Exact) e'
              (Z.max (Zdigits2 m1 + e' - 53) (-1074) - e')) as [mrs'' e''].
  cbn [fst snd] in *.
  destruct (shr_m mrs''); [reflexivity| |reflexivity].
  destruct (Z.leb_spec e'' (F64.emax - F64.prec)) as [|Hgt]; [reflexivity|].
  exfalso. unfold F64.emax, F64.prec in Hgt.
  destruct (0 <? Z.max (Zdigits2 m1 + e' - 53) (-1074) - e'); lia.
Qed.

Lemma truediv_ok a b : 0 <= a <= b -> 0 < b -> exists q, py_truediv a b = Ok q.
Proof.
  intros Ha Hb. unfold py_truediv.
  destruct (Z.eqb_spec b 0); [lia|].
  destruct b as [|pb|pb]; try lia.
  destruct a as [|pa|pa]; try lia.
  - eexists. reflexivity.
  - assert (Hinf : F64.is_inf (F64.div (exact_of_Z (Z.pos pa)) (exact_of_Z (Z.pos pb))) = false).
    { unfold F64.div, exact_of_Z, SFdiv, SFdiv_core_binary. cbn [xorb].
      rewrite fexp64.
      set (d1 := Zdigits2 (Z.pos pa)). set (d2 := Zdigits2 (Z.pos pb)).
      set (e' := Z.min (Z.max (d1 + 0 - (d2 + 0) - 53) (-1074)) (0 - 0)).
      set (m' := match 0 - 0 - e' with Z.pos _ => Z.shiftl (Z.pos pa) (0 - 0 - e') | 0 => Z.pos pa | Z.neg _ => 0 end).
      destruct (Z.div_eucl m' (Z.pos pb)) as [q r] eqn:Hdiv.
      assert (Hd12 : d1 <= d2).
      { apply Zdigits2_le; [lia | apply Zdigits2_nonneg |].
        pose proof (Zdigits2_lt_pow (Z.pos pb) ltac:(lia)) as Hpb. fold d2 in Hpb. lia. }
      assert (He' : e' < 0) by (unfold e'; lia).
      assert (Hm' : m' = Z.pos pa * 2 ^ (- e')).
      { unfold m'. replace (0 - 0 - e') with (- e') by lia.
        destruct (- e') eqn:E; try lia. rewrite Z.shiftl_mul_pow2 by lia. reflexivity. }
      assert (Hq : q = m' / Z.pos pb).
      { unfold Z.div. rewrite Hdiv. reflexivity. }
      assert (Hq0 : 0 <= q).
      { rewrite Hq. apply Z.div_pos; [|lia]. rewrite Hm'.
        pose proof (Z.pow_pos_nonneg 2 (- e')). lia. }
      apply bra_not_inf; [assumption | lia |].
      assert (Hqlt : q < 2 ^ (- e' + 1)).
      { rewrite Hq, Hm'. apply Z.div_lt_upper_bound; [lia|].
        rewrite Z.pow_add_r by lia. pose proof (Z.pow_pos_nonneg 2 (- e')). nia. }
      pose proof (Zdigits2_le q (- e' + 1) Hq0 ltac:(lia) Hqlt). lia. }
    rewrite Hinf. eexists. reflexivity.
Qed.

Lemma bra_normal s mx ex lx :
  0 < mx -> 53 <= Zdigits2 mx -> -1074 <= Zdigits2 mx + ex - 53 -> Zdigits2 mx + ex - 53 < 971 ->
  exists r,
    mx / 2 ^ (Zdigits2 mx - 53) <= r <= mx / 2 ^ (Zdigits2 mx - 53) + 1 /\
    2 ^ 52 <= r <= 2 ^ 53 /\
    binary_round_aux F64.prec F64.emax s mx ex lx =
      if r <? 2 ^ 53 then S754_finite s (Z.to_pos r) (Zdigits2 mx + ex - 53)
      else S754_finite s (2 ^ 52) (Zdigits2 mx + ex - 53 + 1).
Proof.
  intros Hm Hd Hlo Hhi.
  destruct (Zdigits2_bounds mx Hm) as [Hb1 Hb2].
  set (d := Zdigits2 mx) in *.
  unfold binary_round_aux, shr_fexp. rewrite fexp64. fold d.
  replace (Z.max (d + ex - 53) (-1074) - ex) with (d - 53) by lia.
  destruct (shr_m_spec (shr_record_of_loc mx lx) ex (d - 53)) as [Hm1 He1];
    [rewrite shr_record_of_loc_m; lia|].
  destruct (shr (shr_record_of_loc mx lx) ex (d - 53)) as [mrs' e']. cbn [fst snd] in *.
  rewrite shr_record_of_loc_m in Hm1.
  assert (He' : e' = d + ex - 53) by (destruct (0 <? d - 53) eqn:E; lia).
  assert (Hq : shr_m mrs' = mx / 2 ^ (d - 53)).
  { destruct (Z.ltb_spec 0 (d - 53)); [assumption|].
    replace (d - 53) with 0 by lia. rewrite Z.div_1_r. assumption. }
  clear Hm1 He1. subst e'.
  pose proof (round_nearest_even_bounds (shr_m mrs') (loc_of_shr_record mrs')) as Hr.
  set (r := round_nearest_even (shr_m mrs') (loc_of_shr_record mrs')) in *.
  rewrite Hq in Hr.
  assert (Hq1 : 2 ^ 52 <= mx / 2 ^ (d - 53)).
  { apply Z.div_le_lower_bound; [apply Z.pow_pos_nonneg; lia|].
    rewrite <- Z.pow_add_r by lia. replace (d - 53 + 52) with (d - 1) by lia. lia. }
  assert (Hq2 : mx / 2 ^ (d - 53) < 2 ^ 53).
  { replace 53 with (d - (d - 53)) at 2 by lia. apply shifted_lt; lia. }
  exists r. split; [lia|]. split; [lia|].
  rewrite fexp64.
  destruct (Z.ltb_spec r (2 ^ 53)) as [Hlt|Hge].
  - assert (Hdr : Zdigits2 r = 53) by (apply Zdigits2_unique; [lia|]; simpl (53 - 1); lia).
    rewrite Hdr.
    replace (Z.max (53 + (d + ex - 53) - 53) (-1074) - (d + ex - 53)) with 0 by lia.
    cbn [shr shr_record_of_loc shr_m].
    destruct r as [|p|p]; try lia.
    destruct (Z.leb_spec (d + ex - 53) (F64.emax - F64.prec)) as [|Hgt]; [reflexivity|].
    unfold F64.emax, F64.prec in Hgt. lia.
  - assert (Hr53 : r = 2 ^ 53) by lia. rewrite Hr53.
    replace (Zdigits2 (2 ^ 53)) with 54 by reflexivity.
    replace (Z.max (54 + (d + ex - 53) - 53) (-1074) - (d + ex - 53)) with 1 by lia.
    cbn.
    destruct (Z.leb_spec (d + ex - 53 + 1) (F64.emax - F64.prec)) as [|Hgt]; [reflexivity|].
    unfold F64.emax, F64.prec in Hgt. lia.
Qed.

Lemma rint_bounds m n :
  exists k, Z.pos m / 2 ^ Z.pos n <= k <= Z.pos m / 2 ^ Z.pos n + 1 /\
            F64.rint (S754_finite false m (Z.neg n)) = F64.of_Z k.
Proof.
  unfold F64.rint.
  destruct (shr_m_spec (shr_record_of_loc (Z.pos m) loc_Exact) (Z.neg n) (Z.pos n))
    as [Hm _]; [rewrite shr_record_of_loc_m; lia|].
  destruct (shr (shr_record_of_loc (Z.pos m) loc_Exact) (Z.neg n) (Z.pos n)) as [mrs e'].
  cbn [fst] in Hm. rewrite shr_record_of_loc_m in Hm.
  replace (0 <? Z.pos n) with true in Hm by (symmetry; apply Z.ltb_lt; lia).
  exists (round_nearest_even (shr_m mrs) (loc_of_shr_record mrs)). split.
  - rewrite <- Hm. apply round_nearest_even_bounds.
  - reflexivity.
Qed.

Lemma leb_finite_pos m1 e1 m2 e2 :
  F64.leb (S754_finite false m1 e1) (S754_finite false m2 e2) = true ->
  e1 < e2 \/ (e1 = e2 /\ Z.pos m1 <= Z.pos m2).
Proof.
  unfold F64.leb, SFleb, SFcompare.
  destruct (Z.compare_spec e1 e2) as [->|Hlt|Hgt]; intros Hc.
  - right. split; [reflexivity|].
    change (Pos.compare_cont Eq m1 m2) with (Pos.compare m1 m2) in Hc.
    destruct (Pos.compare_spec m1 m2); try discriminate; lia.
  - left. assumption.
  - discriminate.
Qed.

Lemma valid_normal m e :
  F64.valid (S754_finite false m e) = true -> -1074 < e ->
  2 ^ 52 <= Z.pos m < 2 ^ 53.
Proof.
  unfold F64.valid, valid_binary, bounded, canonical_mantissa. rewrite fexp64.
  intros Hv He. apply andb_prop in Hv as [Hc _]. apply Z.eqb_eq in Hc.
  assert (Hd : Zdigits2 (Z.pos m) = 53) by (cbn [Zdigits2]; lia).
  pose proof (Zdigits2_bounds (Z.pos m) ltac:(lia)) as Hb. rewrite Hd in Hb.
  exact Hb.
Qed.

Lemma rint_range r n lo hi :
  0 < r -> lo * 2 ^ Z.pos n <= r < hi * 2 ^ Z.pos n ->
  exists k, lo <= k <= hi /\
            F64.rint (S754_finite false (Z.to_pos r) (Z.neg n)) = F64.of_Z k.
Proof.
  intros Hr [Hlo Hhi]. destruct (rint_bounds (Z.to_pos r) n) as (k & Hk & Hrint).
  rewrite Z2Pos.id in Hk by assumption.
  assert (0 < 2 ^ Z.pos n) by (apply Z.pow_pos_nonneg; lia).
  assert (lo <= r / 2 ^ Z.pos n) by (apply Z.div_le_lower_bound; lia).
  assert (r / 2 ^ Z.pos n < hi) by (apply Z.div_lt_upper_bound; lia).
  exists k. split; [lia | exact Hrint].
Qed.

Definition hundred : float := S754_finite false 7036874417766400 (-46).

Lemma mul_hundred m e d :
  2 ^ 52 <= Z.pos m < 2 ^ 53 -> -54 <= e <= -53 ->
  2 ^ (d - 1) <= Z.pos m * 7036874417766400 < 2 ^ d -> 105 <= d <= 106 ->
  exists r,
    Z.pos m * 7036874417766400 / 2 ^ (d - 53) <= r
      <= Z.pos m * 7036874417766400 / 2 ^ (d - 53) + 1 /\
    2 ^ 52 <= r <= 2 ^ 53 /\
    F64.mul (S754_finite false m e) hundred =
      if r <? 2 ^ 53 then S754_finite false (Z.to_pos r) (d + e - 99)
      else S754_finite false (2 ^ 52) (d + e - 98).
Proof.
  intros Hm He Hmx Hd.
  assert (Hdig : Zdigits2 (Z.pos m * 7036874417766400) = d)
    by (apply Zdigits2_unique; [lia | exact Hmx]).
  unfold F64.mul, hundred, SFmul. cbn [xorb]. rewrite Pos2Z.inj_mul.
  destruct (bra_normal false (Z.pos m * 7036874417766400) (e + -46) loc_Exact)
    as (r & Hr1 & Hr2 & Heq); rewrite ?Hdig; try lia.
  exists r. rewrite Hdig in Hr1, Heq. split; [exact Hr1|]. split; [exact Hr2|].
  rewrite Heq. replace (d + (e + -46) - 53) with (d + e - 99) by lia.
  replace (d + e - 99 + 1) with (d + e - 98) by lia. reflexivity.
Qed.

Lemma round_hundredths x :
  F64.valid x = true -> F64.leb (F64.dec 3 10) x = true -> F64.leb x F64.one = true ->
  exists k, 30 <= k <= 100 /\ F64.np_round x 2 = F64.dec k 100.
Proof.
  intros Hv Hlo Hhi.
  assert (Hgoal : exists k, 30 <= k <= 100 /\ F64.rint (F64.mul x hundred) = F64.of_Z k).
  2:{ destruct Hgoal as (k & Hk & Hr). exists k. split; [exact Hk|].
      unfold F64.np_round, F64.dec.
      change (F64.of_Z (10 ^ 2)) with hundred. rewrite Hr. reflexivity. }
  destruct x as [s|s| |s m e]; try discriminate.
  - destruct s; discriminate.
  - destruct s; [discriminate|].
    change (F64.dec 3 10) with (S754_finite false 5404319552844595 (-54)) in Hlo.
    change F64.one with (S754_finite false 4503599627370496 (-52)) in Hhi.
    apply leb_finite_pos in Hlo, Hhi.
    pose proof (valid_normal m e Hv ltac:(lia)) as Hm.
    change (2 ^ 52) with 4503599627370496 in Hm.
    change (2 ^ 53) with 9007199254740992 in Hm.
    assert (Hcases : (e = -52 /\ m = 4503599627370496%positive) \/
                     (e = -54 /\ m = 5404319552844595%positive) \/
                     (e = -54 /\ 5404319552844595 < Z.pos m < 5764607523034235) \/
                     (e = -54 /\ 5764607523034235 <= Z.pos m) \/
                     (e = -53 /\ Z.pos m < 5764607523034235) \/
                     (e = -53 /\ 5764607523034235 <= Z.pos m)) by lia.
    destruct Hcases as [[-> ->]|[[-> ->]|[[-> Hc]|[[-> Hc]|[[-> Hc]|[-> Hc]]]]]].
    + exists 100. split; [lia | vm_compute; reflexivity].
    + exists 30. split; [lia | vm_compute; reflexivity].
    + destruct (mul_hundred m (-54) 105) as (r & Hr1 & Hr2 & Heq);
        [change (2^52) with 4503599627370496; change (2^53) with 9007199254740992; lia | lia
        | change (2 ^ (105 - 1)) with 20282409603651670423947251286016;
          change (2 ^ 105) with 40564819207303340847894502572032; lia | lia |].
      rewrite Heq.
      change (2 ^ (105 - 53)) with 4503599627370496 in Hr1.
      change (2 ^ 52) with 4503599627370496 in Hr2.
      change (2 ^ 53) with 9007199254740992 in Hr2 |- *.
      assert (Hq : 8444249301319680 <= Z.pos m * 7036874417766400 / 4503599627370496)
        by (apply Z.div_le_lower_bound; lia).
      destruct (Z.ltb_spec r 9007199254740992).
      * destruct (rint_range r 48 30 32) as (k & Hk & Hrk);
          [lia | change (2 ^ Z.pos 48) with 281474976710656; lia |].
        exists k. split; [lia | exact Hrk].
      * exists 32. split; [lia | vm_compute; reflexivity].
    + destruct (mul_hundred m (-54) 106) as (r & Hr1 & Hr2 & Heq);
        [change (2^52) with 4503599627370496; change (2^53) with 9007199254740992; lia | lia
        | change (2 ^ (106 - 1)) with 40564819207303340847894502572032;
          change (2 ^ 106) with 81129638414606681695789005144064; lia | lia |].
      rewrite Heq.
      change (2 ^ 52) with 4503599627370496 in Hr2.
      change (2 ^ 53) with 9007199254740992 in Hr2 |- *.
      destruct (Z.ltb_spec r 9007199254740992).
      * destruct (rint_range r 47 32 64) as (k & Hk & Hrk);
          [lia | change (2 ^ Z.pos 47) with 140737488355328; lia |].
        exists k. split; [lia | exact Hrk].
      * exists 64. split; [lia | vm_compute; reflexivity].
    + destruct (mul_hundred m (-53) 105) as (r & Hr1 & Hr2 & Heq);
        [change (2^52) with 4503599627370496; change (2^53) with 9007199254740992; lia | lia
        | change (2 ^ (105 - 1)) with 20282409603651670423947251286016;
          change (2 ^ 105) with 40564819207303340847894502572032; lia | lia |].
      rewrite Heq.
      change (2 ^ 52) with 4503599627370496 in Hr2.
      change (2 ^ 53) with 9007199254740992 in Hr2 |- *.
      destruct (Z.ltb_spec r 9007199254740992).
      * destruct (rint_range r 47 32 64) as (k & Hk & Hrk);
          [lia | change (2 ^ Z.pos 47) with 140737488355328; lia |].
        exists k. split; [lia | exact Hrk].
      * exists 64. split; [lia | vm_compute; reflexivity].
    + destruct (mul_hundred m (-53) 106) as (r & Hr1 & Hr2 & Heq);
        [change (2^52) with 4503599627370496; change (2^53) with 9007199254740992; lia | lia
        | change (2 ^ (106 - 1)) with 40564819207303340847894502572032;
          change (2 ^ 106) with 81129638414606681695789005144064; lia | lia |].
      rewrite Heq.
      change (2 ^ (106 - 53)) with 9007199254740992 in Hr1.
      change (2 ^ 52) with 4503599627370496 in Hr2.
      change (2 ^ 53) with 9007199254740992 in Hr2 |- *.
      assert (Hq : Z.pos m * 7036874417766400 / 9007199254740992 < 7036874417766400)
        by (apply Z.div_lt_upper_bound; lia).
      destruct (Z.ltb_spec r 9007199254740992); [|lia].
      destruct (Z.eq_dec r 7036874417766400) as [->|Hne].
      * exists 100. split; [lia | vm_compute; reflexivity].
      * destruct (rint_range r 46 64 100) as (k & Hk & Hrk);
          [lia | change (2 ^ Z.pos 46) with 70368744177664; lia |].
        exists k. split; [lia | exact Hrk].
Qed.

Open Scope Z_scope.

(** ** The quality checker *)

Lemma len_nonneg {A} (l : list A) : 0 <= len l.
Proof. unfold len. lia. Qed.

Lemma count_true_bounds (l : list bool) : 0 <= count_true l <= len l.
Proof.
  unfold count_true, len. split; [lia|].
  pose proof (length_filter (fun b : bool => b = true) l). lia.
Qed.

Lemma len_filter_split {A} (f : A -> bool) (l : list A) :
  len l = len (filter (fun x => f x) l) + len (filter (fun x => negb (f x)) l).
Proof.
  unfold len. induction l as [|x l IH]; [reflexivity|].
  rewrite !filter_cons. destruct (f x) eqn:E; simpl;
    repeat case_decide; simpl in *; try tauto; try lia.
Qed.

Ltac qa_eval :=
  cbv beta iota zeta
      delta [py_bind add_check py_lift py_ret set_summary checks summary app].

(** The certification rate of check 4 is always defined: its denominator is
    at least one and its numerator is at most the denominator. *)
Lemma uncert_rate_defined (educators : list educator) :
  let teachers := filter (fun e => bool_decide (ed_role e = "teacher")) educators in
  let uncert :=
    count_true (map (fun e => bool_decide (ed_certification e = "none")) teachers) in
  exists rate, py_truediv uncert (Z.max 1 (len teachers)) = Ok rate.
Proof.
  intros teachers uncert. apply truediv_ok; [|lia].
  pose proof (count_true_bounds
                (map (fun e => bool_decide (ed_certification e = "none")) teachers)) as H.
  fold uncert in H. unfold len in *. rewrite length_map in H. lia.
Qed.

(** The whole report, entry by entry: the checker never raises, and the
    battery is the same nine entries whatever the tables hold. *)
Lemma run_quality_checks_report schools students student_school educators staffing assessments :
  let teachers := filter (fun e => bool_decide (ed_role e = "teacher")) educators in
  let uncert :=
    count_true (map (fun e => bool_decide (ed_certification e = "none")) teachers) in
  let present_schools :=
    count_true (isin (map ss_school_id student_school) (map sc_school_id schools)) in
  let present_students :=
    count_true (isin (map ss_student_id student_school) (map st_student_id students)) in
  exists rate p1 d1 p2 d2 p3 d3 p6 d6 p8 d8 p9 d9,
    py_truediv uncert (Z.max 1 (len teachers)) = Ok rate /\
    let cs :=
      [ {| name := "students_unique_id"; passed := p1; detail := d1 |};
        {| name := "educators_unique_id"; passed := p2; detail := d2 |};
        {| name := "schools_unique_id"; passed := p3; detail := d3 |};
        {| name := "student_school_valid_school_id";
           passed := Z.lnot present_schools =? 0;
           detail := [("missing_school_refs", VInt (Z.lnot present_schools))] |};
        {| name := "student_school_valid_student_id";
           passed := Z.lnot present_students =? 0;
           detail := [("missing_student_refs", VInt (Z.lnot present_students))] |};
        {| name := "educator_total_fte_leq_1_05"; passed := p6; detail := d6 |};
        {| name := "teacher_certification_none_rate_leq_0_02";
           passed := F64.leb rate (F64.dec 2 100);
           detail := [("teacher_count", VInt (len teachers));
                      ("none_cert_count", VInt uncert);
                      ("none_cert_rate", VFloat rate)] |};
        {| name := "assessment_coverage_two_subjects_spring"; passed := p8; detail := d8 |};
        {| name := "students_per_teacher_fte_leq_35"; passed := p9; detail := d9 |} ] in
    run_quality_checks schools students student_school educators staffing assessments =
      Ok {| checks := cs;
            summary := [("total_checks", len cs);
                        ("passed_checks", len (filter (fun c => passed c) cs));
                        ("failed_checks", len (filter (fun c => negb (passed c)) cs))] |}.
Proof.
  intros teachers uncert present_schools present_students.
  destruct (uncert_rate_defined educators) as [rate Hrate]. cbv zeta in Hrate.
  exists rate. subst teachers uncert present_schools present_students.
  unfold run_quality_checks. qa_eval. rewrite Hrate.
  match goal with |- context [existsb ?f ?l] => destruct (existsb f l) eqn:E end.
  - match goal with |- context [np_nanmax ?l] => destruct l eqn:El end.
    + apply (f_equal (@length _)) in El. rewrite length_map in El.
      match type of El with length ?l = _ =>
        destruct l; [discriminate E | discriminate El] end.
    + cbn [np_nanmax]. do 12 eexists. split; reflexivity.
  - do 12 eexists. split; reflexivity.
Qed.

(** C8. [run_quality_checks] returns a report for all six tables (no
    exception escapes, whatever the checks find), the report holds exactly
    one entry per check of the battery, in order, and its summary counts
    them: [total_checks] is the number of entries and equals
    [passed_checks + failed_checks]. The tables are immutable values here;
    the only object the checker updates is its own [results]. *)
Theorem run_quality_checks_total
    schools students student_school educators staffing assessments :
  exists r,
    run_quality_checks schools students student_school educators staffing assessments
      = Ok r /\
    map name (checks r) = battery /\
    summary r =
      [("total_checks", len (checks r));
       ("passed_checks", len (filter (fun c => passed c) (checks r)));
       ("failed_checks", len (filter (fun c => negb (passed c)) (checks r)))] /\
    len (checks r) = 9 /\
    len (checks r) =
      len (filter (fun c => passed c) (checks r)) +
      len (filter (fun c => negb (passed c)) (checks r)).
Proof.
  destruct (run_quality_checks_report schools students student_school educators
              staffing assessments)
    as (rate & p1 & d1 & p2 & d2 & p3 & d3 & p6 & d6 & p8 & d8 & p9 & d9 & _ & Hrun).
  cbv zeta in Hrun. eexists. split; [exact Hrun|]. cbn [checks summary].
  split; [reflexivity|]. split; [reflexivity|]. split; [reflexivity|].
  apply len_filter_split.
Qed.

(** C1 (the code departs from the specification). The two referential-integrity
    entries never report [passed = True], and their detail is not the
    number of missing references: the code complements the number of
    references that are present, so the detail is [-(present) - 1]. *)
Theorem referential_checks_never_pass
    schools students student_school educators staffing assessments :
  let present_schools :=
    count_true (isin (map ss_school_id student_school) (map sc_school_id schools)) in
  let present_students :=
    count_true (isin (map ss_student_id student_school) (map st_student_id students)) in
  exists r,
    run_quality_checks schools students student_school educators staffing assessments
      = Ok r /\
    checks r !! 3%nat =
      Some {| name := "student_school_valid_school_id"; passed := false;
              detail := [("missing_school_refs", VInt (- present_schools - 1))] |} /\
    checks r !! 4%nat =
      Some {| name := "student_school_valid_student_id"; passed := false;
              detail := [("missing_student_refs", VInt (- present_students - 1))] |}.
Proof.
  intros present_schools present_students.
  destruct (run_quality_checks_report schools students student_school educators
              staffing assessments)
    as (rate & p1 & d1 & p2 & d2 & p3 & d3 & p6 & d6 & p8 & d8 & p9 & d9 & _ & Hrun).
  cbv zeta in Hrun. eexists. split; [exact Hrun|]. cbn [checks lookup list_lookup].
  fold present_schools present_students.
  pose proof (count_true_bounds
                (isin (map ss_school_id student_school) (map sc_school_id schools))) as H1.
  pose proof (count_true_bounds
                (isin (map ss_student_id student_school) (map st_student_id students))) as H2.
  fold present_schools in H1. fold present_students in H2.
  replace (Z.lnot present_schools) with (- present_schools - 1) by (unfold Z.lnot; lia).
  replace (Z.lnot present_students) with (- present_students - 1) by (unfold Z.lnot; lia).
  replace (- present_schools - 1 =? 0) with false by (symmetry; apply Z.eqb_neq; lia).
  replace (- present_students - 1 =? 0) with false by (symmetry; apply Z.eqb_neq; lia).
  split; reflexivity.
Qed.

(** C10. Without any educator of role ["teacher"], the certification check
    divides by [max(1, 0) = 1]: the rate is [0.0], nothing is raised, and the
    entry reports [passed = True]. *)
Theorem certification_check_without_teachers
    schools students student_school educators staffing assessments :
  Forall (fun e => ed_role e <> "teacher") educators ->
  py_truediv 0 (Z.max 1 0) = Ok F64.zero /\
  exists r,
    run_quality_checks schools students student_school educators staffing assessments
      = Ok r /\
    checks r !! 6%nat =
      Some {| name := "teacher_certification_none_rate_leq_0_02"; passed := true;
              detail := [("teacher_count", VInt 0); ("none_cert_count", VInt 0);
                         ("none_cert_rate", VFloat F64.zero)] |}.
Proof.
  intros Hno. split; [reflexivity|].
  assert (Ht : filter (fun e => bool_decide (ed_role e = "teacher")) educators = []).
  { induction Hno as [|e l He _ IH]; [reflexivity|].
    rewrite filter_cons.
    destruct (decide (bool_decide (ed_role e = "teacher"))) as [Hd|Hd];
      [apply bool_decide_unpack in Hd; contradiction | exact IH]. }
  destruct (run_quality_checks_report schools students student_school educators
              staffing assessments)
    as (rate & p1 & d1 & p2 & d2 & p3 & d3 & p6 & d6 & p8 & d8 & p9 & d9 & Hrate & Hrun).
  cbv zeta in Hrate, Hrun. rewrite Ht in Hrate, Hrun.
  change (py_truediv 0 (Z.max 1 0)) with (Ok F64.zero) in Hrate.
  injection Hrate as <-.
  eexists. split; [exact Hrun|]. reflexivity.
Qed.

Open Scope Z_scope.

(** ** The analyses *)

(** C5. [proficiency_by_subgroup] returns six rows, one per subject (ela,
    math) and subgroup flag (FRPL, ELL, IEP), in that order, whatever the
    inputs hold, and in each row [gap_group0_minus_group1] is the binary64
    difference [proficiency_group_0 - proficiency_group_1] of the row's own
    two means (NaN when either group is empty). *)
Theorem proficiency_by_subgroup_rows (assessments : list assessment)
    (students : list student) :
  let out := proficiency_by_subgroup assessments students in
  length out = 6%nat /\
  map (fun r => (gr_subject r, gr_group r)) out =
    [("ela", "FRPL"); ("ela", "ELL"); ("ela", "IEP");
     ("math", "FRPL"); ("math", "ELL"); ("math", "IEP")] /\
  Forall (fun r => gap_group0_minus_group1 r =
                   F64.sub (proficiency_group_0 r) (proficiency_group_1 r)) out.
Proof.
  unfold proficiency_by_subgroup. cbn [flat_map map app].
  split; [reflexivity|]. split; [reflexivity|].
  repeat constructor.
Qed.

Lemma insert_key_elem k x keys : x ∈ insert_key k keys <-> x = k \/ x ∈ keys.
Proof.
  induction keys as [|y keys IH]; simpl.
  - rewrite list_elem_of_singleton, elem_of_nil. tauto.
  - destruct (Z.ltb_spec k y); [rewrite elem_of_cons; tauto|].
    destruct (Z.eqb_spec k y) as [->|Hne].
    + rewrite elem_of_cons. tauto.
    + rewrite !elem_of_cons, IH. tauto.
Qed.

Lemma unique_sorted_elem x keys : x ∈ unique_sorted keys <-> x ∈ keys.
Proof.
  unfold unique_sorted. induction keys as [|y keys IH]; simpl; [reflexivity|].
  rewrite insert_key_elem, IH, elem_of_cons. tauto.
Qed.

Lemma series_get_tabulate {V} (f : Z -> V) keys k :
  series_get (map (fun k => (k, f k)) keys) k =
    if bool_decide (k ∈ keys) then Some (f k) else None.
Proof.
  unfold series_get. induction keys as [|y keys IH]; simpl.
  - reflexivity.
  - destruct (Z.eqb_spec y k) as [->|Hne]; simpl.
    + rewrite bool_decide_eq_true_2 by (left). reflexivity.
    + rewrite IH. destruct (bool_decide (k ∈ keys)) eqn:E.
      * apply bool_decide_eq_true_1 in E.
        rewrite bool_decide_eq_true_2 by (right; exact E). reflexivity.
      * apply bool_decide_eq_false_1 in E.
        rewrite bool_decide_eq_false_2; [reflexivity|].
        rewrite elem_of_cons. intros [Heq|Hin]; [congruence | contradiction].
Qed.

(** A key of a [groupby] reads the aggregate of its own group. *)
Lemma series_get_groupby {V R} (agg : list V -> R) (rows : list (Z * V)) k :
  series_get (groupby agg rows) k =
    if bool_decide (k ∈ map fst rows) then Some (agg (group rows k)) else None.
Proof.
  unfold groupby. rewrite (series_get_tabulate (fun k => agg (group rows k))).
  destruct (bool_decide (k ∈ map fst rows)) eqn:E.
  - apply bool_decide_eq_true_1 in E.
    rewrite bool_decide_eq_true_2 by (apply unique_sorted_elem; exact E). reflexivity.
  - apply bool_decide_eq_false_1 in E.
    rewrite bool_decide_eq_false_2 by (rewrite unique_sorted_elem; exact E). reflexivity.
Qed.

Lemma div_nan_r x : F64.div x F64.nan = F64.nan.
Proof. destruct x; reflexivity. Qed.

Lemma div_nan_l x : F64.div F64.nan x = F64.nan.
Proof. reflexivity. Qed.

(** C6, as the code has it. For every row of the staffing ratio table:
    [n_students] is the number of distinct students of the school in the
    bridge, and is missing when the school has no bridge row; [teacher_fte]
    is the summed FTE of the school's teacher rows, and is missing (NaN) when
    it has none; [students_per_teacher_fte] is [n_students / teacher_fte]
    in binary64 when the count is present and the FTE sum is not zero, and
    is missing (NaN, neither an exception nor an infinity) when the FTE sum
    is zero or missing or the count is missing. *)
Theorem staffing_ratio_table_rows
    (student_school : list enrollment) (staffing : list assignment)
    (educators : list educator) (r : ratio_row) :
  r ∈ staffing_ratio_table student_school staffing educators ->
  let k := rr_school_id r in
  rr_n_students r =
    (if bool_decide (k ∈ map ss_school_id student_school)
     then Some (nunique (students_of student_school k)) else None) /\
  rr_teacher_fte r =
    (if bool_decide (teacher_rows_of staffing educators k <> [])
     then F64.kahan_sum (teacher_rows_of staffing educators k) else F64.nan) /\
  (forall n, rr_n_students r = Some n -> F64.is_zero (rr_teacher_fte r) = false ->
             students_per_teacher_fte r = F64.div (F64.of_Z n) (rr_teacher_fte r)) /\
  (F64.is_zero (rr_teacher_fte r) = true -> students_per_teacher_fte r = F64.nan) /\
  (F64.is_nan (rr_teacher_fte r) = true -> students_per_teacher_fte r = F64.nan) /\
  (rr_n_students r = None -> students_per_teacher_fte r = F64.nan).
Proof.
  unfold staffing_ratio_table. intros Hr.
  apply list_elem_of_fmap in Hr as (k & -> & _). cbn [rr_school_id rr_n_students
    rr_teacher_fte students_per_teacher_fte].
  split; [|split; [|split; [|split; [|split]]]].
  - unfold student_counts_by_school. rewrite series_get_groupby.
    rewrite map_map. cbn [fst]. reflexivity.
  - unfold teacher_fte_by_school. rewrite series_get_groupby.
    fold (teacher_rows_of staffing educators k).
    unfold teacher_rows_of at 2 3, group.
    set (rows := map (fun r => (sf_school_id (fst r), sf_fte (fst r))) _).
    destruct (bool_decide (k ∈ map fst rows)) eqn:E.
    + apply bool_decide_eq_true_1 in E.
      rewrite bool_decide_eq_true_2; [reflexivity|].
      apply list_elem_of_fmap in E as ([k' v] & -> & Hin). cbn [fst] in *.
      intros Hnil. apply (f_equal (fun l => v ∈ l)) in Hnil.
      assert (Hv : v ∈ map snd (filter (fun r => fst r =? k') rows)).
      { apply list_elem_of_fmap. exists (k', v). split; [reflexivity|].
        apply list_elem_of_filter. split; [|exact Hin]. cbn [fst].
        rewrite Z.eqb_refl. exact I. }
      rewrite Hnil in Hv. inversion Hv.
    + apply bool_decide_eq_false_1 in E.
      rewrite bool_decide_eq_false_2; [reflexivity|].
      intros Hne. apply Hne. clear Hne.
      destruct (filter (fun r => fst r =? k) rows) as [|[k' v] l] eqn:Ef; [reflexivity|].
      exfalso. apply E.
      assert (Hin : (k', v) ∈ filter (fun r => fst r =? k) rows) by (rewrite Ef; left).
      apply list_elem_of_filter in Hin as [Hk Hin]. cbn [fst] in Hk.
      apply Is_true_true, Z.eqb_eq in Hk. subst k'.
      apply list_elem_of_fmap. exists (k, v). split; [reflexivity | exact Hin].
  - intros n Hn Hz. rewrite Hn. cbn [fmap option_fmap option_map cell default].
    unfold replace_zero_nan. rewrite Hz. reflexivity.
  - intros Hz. unfold replace_zero_nan. rewrite Hz. apply div_nan_r.
  - intros Hz. unfold replace_zero_nan.
    destruct (cell _); try discriminate. apply div_nan_r.
  - intros Hn. rewrite Hn. reflexivity.
Qed.

(** The specification's example: 100 students and four full-time teachers
    give a ratio of exactly 25.0. *)
Example staffing_ratio_100_over_4 :
  staffing_ratio_table
    (map (fun i => enrol i 1001) (arange 2000001 2000101))
    (map (fun i => staff 1001 i F64.one) (arange 3000001 3000005))
    (map (fun i => person i "teacher" "standard") (arange 3000001 3000005))
  = [{| rr_school_id := 1001; rr_n_students := Some 100;
        rr_teacher_fte := F64.of_Z 4;
        students_per_teacher_fte := F64.of_Z 25 |}].
Proof. vm_compute. reflexivity. Qed.

(** A school whose teachers sum to zero FTE gets a missing ratio. *)
Example staffing_ratio_zero_fte :
  staffing_ratio_table [enrol 2000001 1001] [staff 1001 3000001 F64.zero]
                       [person 3000001 "teacher" "standard"]
  = [{| rr_school_id := 1001; rr_n_students := Some 1;
        rr_teacher_fte := F64.zero; students_per_teacher_fte := F64.nan |}].
Proof. vm_compute. reflexivity. Qed.

Lemma staffing_ratio_table_rows_witness :
  let r := {| rr_school_id := 1001; rr_n_students := Some 1;
              rr_teacher_fte := F64.of_Z 2;
              students_per_teacher_fte := F64.dec 5 10 |} in
  r ∈ staffing_ratio_table [enrol 2000001 1001]
        [staff 1001 3000001 F64.one; staff 1001 3000002 F64.one]
        [person 3000001 "teacher" "standard"; person 3000002 "teacher" "none"] /\
  students_per_teacher_fte r = F64.div (F64.of_Z 1) (rr_teacher_fte r).
Proof.
  intros r.
  assert (Hin : r ∈ staffing_ratio_table [enrol 2000001 1001]
                  [staff 1001 3000001 F64.one; staff 1001 3000002 F64.one]
                  [person 3000001 "teacher" "standard"; person 3000002 "teacher" "none"])
    by (vm_compute; left).
  split; [exact Hin|].
  destruct (staffing_ratio_table_rows _ _ _ r Hin) as (_ & _ & Hdiv & _).
  apply Hdiv; reflexivity.
Defined.

(** C6 as the specification words it fails for a school that has teachers but no
    student in the bridge: its distinct-student count is 0 and its teacher
    FTE is 1.0, yet the ratio is missing, not [0 / 1.0]. *)
Lemma staffing_ratio_school_without_students :
  ~ (forall (student_school : list enrollment) (staffing : list assignment)
            (educators : list educator) (r : ratio_row),
        r ∈ staffing_ratio_table student_school staffing educators ->
        F64.is_zero (rr_teacher_fte r) = false ->
        F64.is_nan (rr_teacher_fte r) = false ->
        students_per_teacher_fte r =
          F64.div (F64.of_Z (nunique (students_of student_school (rr_school_id r))))
                  (rr_teacher_fte r)).
Proof.
  intros H.
  specialize (H [] [staff 1001 3000001 F64.one] [person 3000001 "teacher" "standard"]
                {| rr_school_id := 1001; rr_n_students := None;
                   rr_teacher_fte := F64.one; students_per_teacher_fte := F64.nan |}).
  assert (Hin : {| rr_school_id := 1001; rr_n_students := None;
                   rr_teacher_fte := F64.one; students_per_teacher_fte := F64.nan |}
                ∈ staffing_ratio_table [] [staff 1001 3000001 F64.one]
                    [person 3000001 "teacher" "standard"])
    by (vm_compute; left).
  specialize (H Hin eq_refl eq_refl). vm_compute in H. discriminate H.
Qed.

Lemma eqb_self x : F64.eqb x x = negb (F64.is_nan x).
Proof.
  destruct x as [s|s| |s m e]; unfold F64.eqb, SFeqb; simpl; try reflexivity.
  - destruct s; reflexivity.
  - rewrite Z.compare_refl, Pos.compare_cont_refl. destruct s; reflexivity.
Qed.

(** C7. [ratio_vs_proficiency] keeps the rows of the ratio table, and the
    correlation it attaches is numpy's coefficient of the two columns
    restricted to the rows where both values are present, provided there are
    at least three such rows and the coefficient is a number; with fewer than
    three such rows (or an undefined coefficient) it is [None]. No step of
    the function can raise, and [None] is not zero. *)
Theorem ratio_vs_proficiency_corr
    (np_corrcoef : list float -> list float -> float)
    (ratio_tbl : list ratio_row) (assessments : list assessment)
    (student_school : list enrollment) :
  let df := fst (ratio_vs_proficiency np_corrcoef ratio_tbl assessments student_school) in
  let corr := snd (ratio_vs_proficiency np_corrcoef ratio_tbl assessments student_school) in
  let valid := filter (fun r => both_present r) df in
  map rp_ratio df = ratio_tbl /\
  corr =
    (if len valid <? 3 then None
     else let c := np_corrcoef (map (fun r => students_per_teacher_fte (rp_ratio r)) valid)
                               (map avg_proficiency valid) in
          if F64.is_nan c then None else Some c).
Proof.
  unfold ratio_vs_proficiency, both_present. cbn [fst snd]. split.
  - rewrite map_map. cbn [rp_ratio]. apply map_id.
  - match goal with |- context [filter ?P ?l] => set (valid := filter P l) end.
    replace (2 <? len valid) with (negb (len valid <? 3))
      by (destruct (Z.ltb_spec (len valid) 3), (Z.ltb_spec 2 (len valid)); simpl; lia).
    destruct (len valid <? 3); cbn [negb]; [reflexivity|].
    rewrite eqb_self. destruct (F64.is_nan _); reflexivity.
Qed.

(** Two schools only: the correlation is [None] whatever numpy would say. *)
Example ratio_vs_proficiency_two_schools (np_corrcoef : list float -> list float -> float) :
  let tbl := staffing_ratio_table
               [enrol 2000001 1001; enrol 2000002 1002]
               [staff 1001 3000001 F64.one; staff 1002 3000002 F64.one]
               [person 3000001 "teacher" "standard"; person 3000002 "teacher" "none"] in
  let spring (student school flag : Z) :=
    {| as_student_id := student; as_school_id := school; as_school_year := 2025;
       as_term := "spring"; as_subject := "ela"; as_scale_score := F64.of_Z 260;
       as_proficient_flag := flag |} in
  snd (ratio_vs_proficiency np_corrcoef tbl
         [spring 2000001 1001 1; spring 2000002 1002 0] []) = None.
Proof. vm_compute. reflexivity. Qed.

Open Scope Z_scope.

(** ** The generator *)

Lemma py_bind_ok {S A B} (c : Py S A) (k : A -> Py S B) s r :
  py_bind c k s = Ok r -> exists a s', c s = Ok (a, s') /\ k a s' = Ok r.
Proof.
  unfold py_bind. destruct (c s) as [[a s']|e]; [|discriminate]. eauto.
Qed.

Lemma py_lift_ok {S A} (o : outcome A) (s : S) a s' :
  py_lift o s = Ok (a, s') -> o = Ok a /\ s' = s.
Proof. unfold py_lift. destruct o; [|discriminate]. intros [= -> ->]. auto. Qed.

Lemma py_ret_ok {S A} (x : A) (s : S) a s' :
  py_ret x s = Ok (a, s') -> a = x /\ s' = s.
Proof. unfold py_ret. intros [= -> ->]. auto. Qed.

Lemma DataFrame_ok {R} lens (frame x : R) :
  DataFrame lens frame = Ok x ->
  x = frame /\ forall n rest, lens = n :: rest -> Forall (fun m => m = n) rest.
Proof.
  unfold DataFrame. destruct lens as [|n rest].
  - intros [= <-]. split; [reflexivity | discriminate].
  - destruct (forallb (Z.eqb n) rest) eqn:E; [|discriminate].
    intros [= <-]. split; [reflexivity|]. intros n' rest' [= <- <-].
    apply List.Forall_forall. intros m Hm.
    rewrite forallb_forall in E.
    specialize (E m Hm). apply Z.eqb_eq in E. congruence.
Qed.

Lemma elem_of_arange lo hi x : x ∈ arange lo hi -> lo <= x < hi.
Proof.
  unfold arange. intros Hx. apply list_elem_of_fmap in Hx as (i & -> & Hi).
  apply elem_of_seq in Hi. lia.
Qed.

Lemma NoDup_arange lo hi : NoDup (arange lo hi).
Proof.
  unfold arange. apply NoDup_fmap_2_strong; [|apply NoDup_seq].
  intros i j _ _ Hij. lia.
Qed.

Lemma elem_of_np_where_from n mask i :
  i ∈ np_where_from n mask <-> (n <= i)%nat /\ mask !! (i - n)%nat = Some true.
Proof.
  revert n. induction mask as [|b mask IH]; intros n; simpl.
  - rewrite elem_of_nil. split; [tauto | intros [_ H]; discriminate].
  - assert (Hstep : (S n <= i)%nat /\ mask !! (i - S n)%nat = Some true <->
                    (n < i)%nat /\ (b :: mask) !! (i - n)%nat = Some true).
    { split; intros [Hle Hl]; (split; [lia|]).
      - replace (i - n)%nat with (S (i - S n)) by lia. exact Hl.
      - replace (i - n)%nat with (S (i - S n)) in Hl by lia. exact Hl. }
    destruct b.
    + rewrite elem_of_cons, IH, Hstep. split.
      * intros [->|[Hlt Hl]]; [split; [lia|]; rewrite Nat.sub_diag; reflexivity|].
        split; [lia | exact Hl].
      * intros [Hle Hl]. destruct (decide (i = n)) as [->|Hne]; [left; reflexivity|].
        right. split; [lia | exact Hl].
    + rewrite IH, Hstep. split.
      * intros [Hlt Hl]. split; [lia | exact Hl].
      * intros [Hle Hl]. destruct (decide (i = n)) as [->|Hne].
        -- rewrite Nat.sub_diag in Hl. discriminate.
        -- split; [lia | exact Hl].
Qed.

Lemma elem_of_np_where mask i : i ∈ np_where mask <-> mask !! i = Some true.
Proof.
  unfold np_where. rewrite elem_of_np_where_from, Nat.sub_0_r.
  split; [tauto | intros; split; [lia | assumption]].
Qed.

(** Writing values at positions: a cell read afterwards is either one that
    was not written, or holds one of the written values. *)
Definition writes (a : list Z) (ivs : list (nat * Z)) : list Z :=
  fold_left (fun acc iv => <[fst iv := snd iv]> acc) ivs a.

Lemma writes_length a ivs : length (writes a ivs) = length a.
Proof.
  unfold writes. revert a. induction ivs as [|iv ivs IH]; intros a; simpl; [reflexivity|].
  rewrite IH. apply length_insert.
Qed.

Lemma writes_lookup a ivs i v :
  writes a ivs !! i = Some v ->
  ((i ∉ map fst ivs) /\ a !! i = Some v) \/ ((i ∈ map fst ivs) /\ v ∈ map snd ivs).
Proof.
  unfold writes. revert a. induction ivs as [|[i0 v0] ivs IH]; intros a; simpl.
  - intros H. left. split; [apply not_elem_of_nil | exact H].
  - intros H. apply IH in H as [[Hni H]|[Hi Hv]].
    + apply list_lookup_insert_Some in H as [(-> & -> & _)|[Hne H]].
      * right. split; left.
      * left. split; [|exact H]. cbn [map fst]. rewrite elem_of_cons.
        intros [Heq|Hin]; [congruence | contradiction].
    + right. split; right; assumption.
Qed.

Lemma writes_agree (P : nat -> Prop) a1 a2 ivs :
  length a1 = length a2 -> (forall i, P i -> a1 !! i = a2 !! i) ->
  forall i, P i \/ i ∈ map fst ivs -> writes a1 ivs !! i = writes a2 ivs !! i.
Proof.
  unfold writes. revert a1 a2 P. induction ivs as [|[i0 v0] ivs IH];
    intros a1 a2 P Hlen Hag i Hi; simpl.
  - destruct Hi as [Hi|Hi]; [auto | inversion Hi].
  - apply (IH _ _ (fun i => P i \/ i = i0)).
    + rewrite !length_insert. exact Hlen.
    + intros j [Hj| ->]; rewrite !list_lookup_insert, Hlen.
      * destruct (decide _); [reflexivity | auto].
      * destruct (decide (i0 = i0 /\ (i0 < length a2)%nat)) as [_|Hn]; [reflexivity|].
        rewrite !lookup_ge_None_2 by lia. reflexivity.
    + cbn [map fst] in Hi. rewrite elem_of_cons in Hi. tauto.
Qed.

Lemma fst_zip_same {A B} (l : list A) (k : list B) :
  length l = length k -> map fst (zip l k) = l.
Proof.
  revert k. induction l as [|x l IH]; intros [|y k] Hlen; simpl in *; try lia;
    [reflexivity|]. f_equal. apply IH. lia.
Qed.

Lemma snd_zip_same {A B} (l : list A) (k : list B) :
  length l = length k -> map snd (zip l k) = k.
Proof.
  revert k. induction l as [|x l IH]; intros [|y k] Hlen; simpl in *; try lia;
    [reflexivity|]. f_equal. apply IH. lia.
Qed.

Lemma assign_at_ok a idx vals a' :
  assign_at a idx vals = Ok a' ->
  a' = writes a (zip idx vals) /\ length vals = length idx.
Proof.
  unfold assign_at, len. destruct (Z.eqb_spec (Z.of_nat (length vals)) (Z.of_nat (length idx)));
    [|discriminate]. intros [= <-]. split; [reflexivity | lia].
Qed.

Section GeneratorProps.

Context {rng : Type} `{Generator rng}.

(** Position [i] is selected by the mask of one of the levels [lvls]. *)
Definition covered (level_mask : list (string * list bool)) (lvls : list string)
    (i : nat) : Prop :=
  exists lvl mask,
    lvl ∈ lvls /\ dict_get level_mask lvl = Ok mask /\ mask !! i = Some true.

Lemma covered_cons level_mask lvl lvls mask i :
  dict_get level_mask lvl = Ok mask ->
  covered level_mask (lvl :: lvls) i <->
  mask !! i = Some true \/ covered level_mask lvls i.
Proof.
  intros Hd. unfold covered. split.
  - intros (l & m & Hl & Hm & Hi). apply elem_of_cons in Hl as [->|Hl].
    + left. congruence.
    + right. eauto.
  - intros [Hi|(l & m & Hl & Hm & Hi)].
    + exists lvl, mask. split; [left|]. auto.
    + exists l, m. split; [right; exact Hl|]. auto.
Qed.

Lemma assign_schools_lookup lvls schools level_mask a g a' g' :
  assign_schools lvls schools level_mask a g = Ok (a', g') ->
  length a' = length a /\
  forall i v, a' !! i = Some v ->
    (~ covered level_mask lvls i /\ a !! i = Some v) \/
    (exists lvl mask,
        lvl ∈ lvls /\ dict_get level_mask lvl = Ok mask /\
        mask !! i = Some true /\ v ∈ eligible schools lvl).
Proof.
  revert a g. induction lvls as [|lvl lvls IH]; intros a g Hrun.
  - apply py_ret_ok in Hrun as [-> _]. split; [reflexivity|].
    intros i v Hv. left. split; [|exact Hv].
    intros (l & m & Hl & _). inversion Hl.
  - cbn [assign_schools] in Hrun.
    apply py_bind_ok in Hrun as (mask & g0 & Hmask & Hrun).
    apply py_lift_ok in Hmask as [Hmask ->].
    apply py_bind_ok in Hrun as (drawn & g1 & Hdraw & Hrun).
    apply py_bind_ok in Hrun as (a1 & g2 & Hassign & Hrun).
    apply py_lift_ok in Hassign as [Hassign ->].
    apply assign_at_ok in Hassign as [-> Hlen].
    apply choice_spec in Hdraw as [_ Hfrom].
    apply IH in Hrun as [Hlen' Hlook].
    split; [rewrite Hlen', writes_length; reflexivity|].
    intros i v Hv. apply Hlook in Hv as [[Hnc Hv]|(l & m & Hl & Hm & Hi & Hel)].
    + apply writes_lookup in Hv.
      rewrite fst_zip_same, snd_zip_same in Hv by lia.
      destruct Hv as [[Hni Hv]|[Hi Hv]].
      * left. split; [|exact Hv].
        rewrite (covered_cons _ _ _ _ _ Hmask). rewrite elem_of_np_where in Hni. tauto.
      * right. exists lvl, mask. split; [left|]. split; [exact Hmask|].
        split; [apply elem_of_np_where; exact Hi|].
        rewrite List.Forall_forall in Hfrom. apply Hfrom, list_elem_of_In. exact Hv.
    + right. exists l, m. split; [right; exact Hl|]. auto.
Qed.

(** Two runs of the assignment loop that start from different buffers. *)
Definition arrays_agree (P : nat -> Prop) (o1 o2 : outcome (list Z * rng)) : Prop :=
  match o1, o2 with
  | Ok (b1, g1), Ok (b2, g2) =>
      g1 = g2 /\ length b1 = length b2 /\ forall i, P i -> b1 !! i = b2 !! i
  | Raise e1, Raise e2 => e1 = e2
  | _, _ => False
  end.

Lemma arrays_agree_mono (P Q : nat -> Prop) o1 o2 :
  (forall i, Q i -> P i) -> arrays_agree P o1 o2 -> arrays_agree Q o1 o2.
Proof.
  intros HPQ. unfold arrays_agree.
  destruct o1 as [[b1 g1]|e1], o2 as [[b2 g2]|e2]; auto.
  intros (Hg & Hl & Hag). auto.
Qed.

Lemma assign_schools_step lvl lvls schools level_mask a g :
  assign_schools (lvl :: lvls) schools level_mask a g =
    match dict_get level_mask lvl with
    | Ok mask =>
        match choice (eligible schools lvl) None (len (np_where mask)) g with
        | Ok (drawn, g1) =>
            match assign_at a (np_where mask) drawn with
            | Ok a' => assign_schools lvls schools level_mask a' g1
            | Raise e => Raise e
            end
        | Raise e => Raise e
        end
    | Raise e => Raise e
    end.
Proof.
  cbn [assign_schools]. unfold py_bind, py_lift, eligible.
  destruct (dict_get level_mask lvl) as [mask|e]; [|reflexivity].
  destruct (choice _ None _ g) as [[drawn g1]|e]; [|reflexivity].
  destruct (assign_at a (np_where mask) drawn); reflexivity.
Qed.

Lemma assign_schools_agree lvls schools level_mask (P : nat -> Prop) a1 a2 g :
  length a1 = length a2 -> (forall i, P i -> a1 !! i = a2 !! i) ->
  arrays_agree (fun i => P i \/ covered level_mask lvls i)
    (assign_schools lvls schools level_mask a1 g)
    (assign_schools lvls schools level_mask a2 g).
Proof.
  revert P a1 a2 g. induction lvls as [|lvl lvls IH]; intros P a1 a2 g Hlen Hag.
  - cbn. split; [reflexivity|]. split; [exact Hlen|].
    intros i [Hi|(l & m & Hl & _)]; [auto | inversion Hl].
  - rewrite !assign_schools_step.
    destruct (dict_get level_mask lvl) as [mask|e] eqn:Hmask; [|reflexivity].
    destruct (choice _ None _ g) as [[drawn g1]|e]; [|reflexivity].
    unfold assign_at. destruct (Z.eqb_spec (len drawn) (len (np_where mask))) as [Hl|Hl];
      [|reflexivity].
    unfold len in Hl.
    eapply arrays_agree_mono;
      [|apply (IH (fun i => P i \/ i ∈ np_where mask))].
    + intros i [Hi|Hc]; [left; left; exact Hi|].
      apply (covered_cons _ _ _ _ _ Hmask) in Hc as [Hc|Hc].
      * left. right. apply elem_of_np_where. exact Hc.
      * right. exact Hc.
    + fold (writes a1 (zip (np_where mask) drawn)).
      fold (writes a2 (zip (np_where mask) drawn)).
      rewrite !writes_length. exact Hlen.
    + intros i Hi.
      fold (writes a1 (zip (np_where mask) drawn)).
      fold (writes a2 (zip (np_where mask) drawn)).
      apply (writes_agree P); [exact Hlen | exact Hag |].
      rewrite fst_zip_same by lia. exact Hi.
Qed.

Lemma grade_covered (students : list student) i s :
  students !! i = Some s -> 3 <= st_grade_level s <= 12 ->
  covered
    [("elementary", map (fun s => between 3 5 (st_grade_level s)) students);
     ("middle", map (fun s => between 6 8 (st_grade_level s)) students);
     ("high", map (fun s => between 9 12 (st_grade_level s)) students)]
    ["elementary"; "middle"; "high"] i.
Proof.
  intros Hs Hg. unfold covered.
  assert (Hcase : 3 <= st_grade_level s <= 5 \/ 6 <= st_grade_level s <= 8 \/
                  9 <= st_grade_level s <= 12) by lia.
  destruct Hcase as [Hc|[Hc|Hc]].
  - exists "elementary", (map (fun s => between 3 5 (st_grade_level s)) students).
    split; [left|]. split; [reflexivity|].
    rewrite list_lookup_fmap, Hs. cbn. unfold between.
    f_equal. apply andb_true_intro. split; apply Z.leb_le; lia.
  - exists "middle", (map (fun s => between 6 8 (st_grade_level s)) students).
    split; [right; left|]. split; [reflexivity|].
    rewrite list_lookup_fmap, Hs. cbn. unfold between.
    f_equal. apply andb_true_intro. split; apply Z.leb_le; lia.
  - exists "high", (map (fun s => between 9 12 (st_grade_level s)) students).
    split; [right; right; left|]. split; [reflexivity|].
    rewrite list_lookup_fmap, Hs. cbn. unfold between.
    f_equal. apply andb_true_intro. split; apply Z.leb_le; lia.
Qed.

Lemma gen_student_school_step heap cfg schools (students : list student) g :
  gen_student_school heap cfg schools students g =
    match np_empty heap (n_students cfg) with
    | Ok a =>
        match assign_schools ["elementary"; "middle"; "high"] schools
                [("elementary", map (fun s => between 3 5 (st_grade_level s)) students);
                 ("middle", map (fun s => between 6 8 (st_grade_level s)) students);
                 ("high", map (fun s => between 9 12 (st_grade_level s)) students)]
                a g with
        | Ok (b, g') =>
            match DataFrame [len students; len b] b with
            | Ok c => Ok (c, g')
            | Raise e => Raise e
            end
        | Raise e => Raise e
        end
    | Raise e => Raise e
    end.
Proof.
  unfold gen_student_school, py_bind, py_lift.
  destruct (np_empty heap (n_students cfg)) as [a|e]; [|reflexivity].
  destruct (assign_schools _ _ _ a g) as [[b g']|e]; [|reflexivity].
  destruct (DataFrame _ b); reflexivity.
Qed.

(** The buffer [np.empty] returns does not show in the column: every
    position is overwritten, because every grade lies in one of the bands. *)
Lemma gen_student_school_heap heap1 heap2 cfg schools (students : list student) g :
  Forall (fun s => 3 <= st_grade_level s <= 12) students ->
  gen_student_school heap1 cfg schools students g =
  gen_student_school heap2 cfg schools students g.
Proof.
  intros Hgrades. rewrite !gen_student_school_step.
  set (level_mask := [("elementary", _); ("middle", _); ("high", _)]).
  unfold np_empty. destruct (n_students cfg <? 0); [reflexivity|].
  set (a1 := map heap1 _). set (a2 := map heap2 _).
  assert (Hlen : length a1 = length a2) by (unfold a1, a2; rewrite !length_map; reflexivity).
  pose proof (assign_schools_agree ["elementary"; "middle"; "high"] schools level_mask
                (fun _ => False) a1 a2 g Hlen ltac:(intros i []) ) as Hag.
  destruct (assign_schools _ schools level_mask a1 g) as [[b1 g1]|e1],
           (assign_schools _ schools level_mask a2 g) as [[b2 g2]|e2];
    cbn in Hag; try contradiction; [|congruence].
  destruct Hag as (-> & Hl & Hag).
  unfold DataFrame, len. rewrite Hl. cbn [forallb].
  destruct (Z.eqb_spec (Z.of_nat (length students)) (Z.of_nat (length b2))) as [Hs|Hs];
    [|reflexivity].
  cbn [andb]. do 2 f_equal. apply list_eq. intros i.
  destruct (students !! i) as [s|] eqn:Hsi.
  - apply Hag. right. eapply grade_covered; [exact Hsi|].
    rewrite List.Forall_forall in Hgrades. apply Hgrades, list_elem_of_In.
    eapply list_elem_of_lookup_2. exact Hsi.
  - apply lookup_ge_None_1 in Hsi.
    rewrite !lookup_ge_None_2 by lia. reflexivity.
Qed.

Lemma py_bind_ext {S A B} (c : Py S A) (k1 k2 : A -> Py S B) s :
  (forall a s', c s = Ok (a, s') -> k1 a s' = k2 a s') ->
  py_bind c k1 s = py_bind c k2 s.
Proof.
  intros Hk. unfold py_bind. destruct (c s) as [[a s']|e]; [|reflexivity]. auto.
Qed.

Lemma gen_students_grades cfg g students g' :
  gen_students cfg g = Ok (students, g') ->
  Forall (fun s => 3 <= st_grade_level s <= 12) students.
Proof.
  unfold gen_students. intros Hrun.
  apply py_bind_ok in Hrun as (grade & g1 & Hgrade & Hrun).
  apply py_bind_ok in Hrun as (frpl_draw & g2 & _ & Hrun).
  apply py_bind_ok in Hrun as (ell_draw & g3 & _ & Hrun).
  apply py_bind_ok in Hrun as (iep_draw & g4 & _ & Hrun).
  apply py_bind_ok in Hrun as (gender & g5 & _ & Hrun).
  apply py_bind_ok in Hrun as (race & g6 & _ & Hrun).
  apply py_bind_ok in Hrun as (birth_year & g7 & _ & Hrun).
  apply py_lift_ok in Hrun as [Hframe _].
  apply DataFrame_ok in Hframe as [-> _].
  apply choice_spec in Hgrade as [_ Hgrade].
  apply List.Forall_forall. intros s Hs.
  apply list_elem_of_In, list_elem_of_fmap in Hs
    as ([i [b [gr [ge [ra [f [e p]]]]]]] & -> & Hin).
  apply elem_of_zip_r, elem_of_zip_r, elem_of_zip_l in Hin.
  cbn [st_grade_level].
  rewrite List.Forall_forall in Hgrade.
  apply list_elem_of_In, Hgrade, elem_of_arange in Hin. lia.
Qed.

(** The stages behind a successful run. *)
Lemma generate_all_stages heap cfg t :
  generate_all heap cfg = Ok t ->
  exists student_school g0 g1 g2 g3 g4 g5 g6,
    default_rng (seed cfg) = Ok g0 /\
    gen_schools cfg g0 = Ok (t_schools t, g1) /\
    gen_students cfg g1 = Ok (t_students t, g2) /\
    gen_student_school heap cfg (t_schools t) (t_students t) g2
      = Ok (student_school, g3) /\
    t_student_school t = bridge (t_students t) student_school /\
    gen_educators cfg g3 = Ok (t_educators t, g4) /\
    gen_staffing cfg (t_schools t) (t_educators t) g4 = Ok (t_staffing t, g5) /\
    gen_assessments cfg (t_schools t) (t_students t) student_school g5
      = Ok (t_assessments t, g6).
Proof.
  unfold generate_all.
  destruct (default_rng (seed cfg)) as [g0|e]; [|discriminate].
  destruct (generate_from heap cfg g0) as [[t' g']|e] eqn:Hrun; [|discriminate].
  intros [= ->]. unfold generate_from in Hrun.
  apply py_bind_ok in Hrun as (schools & g1 & Hschools & Hrun).
  apply py_bind_ok in Hrun as (students & g2 & Hstudents & Hrun).
  apply py_bind_ok in Hrun as (student_school & g3 & Hss & Hrun).
  apply py_bind_ok in Hrun as (educators & g4 & Heducators & Hrun).
  apply py_bind_ok in Hrun as (staffing & g5 & Hstaffing & Hrun).
  apply py_bind_ok in Hrun as (assessments & g6 & Hassess & Hrun).
  apply py_ret_ok in Hrun as [-> _]. cbn.
  exists student_school, g0, g1, g2, g3, g4, g5, g6. auto 10.
Qed.

Lemma gen_student_school_bands heap cfg schools (students : list student) g ss g' :
  gen_student_school heap cfg schools students g = Ok (ss, g') ->
  Forall (fun s => 3 <= st_grade_level s <= 12) students ->
  length ss = length students /\
  forall i s v, students !! i = Some s -> ss !! i = Some v ->
    (3 <= st_grade_level s <= 5 /\ v ∈ eligible schools "elementary") \/
    (6 <= st_grade_level s <= 8 /\ v ∈ eligible schools "middle") \/
    (9 <= st_grade_level s <= 12 /\ v ∈ eligible schools "high").
Proof.
  rewrite gen_student_school_step. intros Hrun Hgrades.
  destruct (np_empty heap (n_students cfg)) as [a|e]; [|discriminate].
  destruct (assign_schools _ _ _ a g) as [[b g1]|e] eqn:Hassign; [|discriminate].
  destruct (DataFrame _ b) as [c|e] eqn:Hframe; [|discriminate].
  injection Hrun as -> ->.
  apply DataFrame_ok in Hframe as [-> Hlens].
  specialize (Hlens _ _ eq_refl). apply Forall_inv in Hlens. unfold len in Hlens.
  split; [lia|].
  apply assign_schools_lookup in Hassign as [_ Hlook].
  intros i s v Hs Hv.
  rewrite List.Forall_forall in Hgrades.
  assert (Hg : 3 <= st_grade_level s <= 12)
    by (apply Hgrades, list_elem_of_In; eapply list_elem_of_lookup_2; exact Hs).
  apply Hlook in Hv as [[Hnc _]|(lvl & mask & Hl & Hd & Hm & Hel)].
  - exfalso. apply Hnc. eapply grade_covered; eassumption.
  - assert (Hbetween : forall lo hi,
               mask = map (fun s => between lo hi (st_grade_level s)) students ->
               lo <= st_grade_level s <= hi).
    { intros lo hi ->. rewrite list_lookup_fmap, Hs in Hm. cbn in Hm.
      injection Hm as Hm. unfold between in Hm.
      apply andb_prop in Hm as [H1 H2]. apply Z.leb_le in H1, H2. lia. }
    repeat (apply elem_of_cons in Hl as [->|Hl]); [| | |inversion Hl];
      cbn in Hd; injection Hd as Hd; symmetry in Hd; apply Hbetween in Hd; auto.
Qed.

Lemma len_one {A} (l : list A) : len l = 1 -> exists x, l = [x].
Proof. unfold len. destruct l as [|x [|y l]]; simpl; try lia. eauto. Qed.

Lemma len_two {A} (l : list A) : len l = 2 -> exists x y, l = [x; y].
Proof. unfold len. destruct l as [|x [|y [|z l]]]; simpl; try lia. eauto. Qed.

Lemma staffing_of_educator_rows school_ids year e g rows g' :
  staffing_of_educator school_ids year e g = Ok (rows, g') ->
  Forall (fun r => sf_educator_id r = ed_educator_id e) rows /\
  fte_split (map sf_fte rows).
Proof.
  unfold staffing_of_educator. intros Hrun.
  apply py_bind_ok in Hrun as (r & g1 & _ & Hrun).
  apply py_bind_ok in Hrun as (sfe & g2 & Hsfe & Hrun).
  apply choice_distinct_len in Hsfe.
  destruct (F64.ltb r (F64.dec 88 100)).
  - apply len_one in Hsfe as [s1 ->].
    change (zip (arange 0 (len [s1])) [s1]) with [(0, s1)] in Hrun.
    cbn [fte_loop] in Hrun. change (0 =? 1 - 1) with true in Hrun. cbv iota in Hrun.
    apply py_bind_ok in Hrun as (fte & g3 & Hfte & Hrun).
    apply py_ret_ok in Hfte as [-> ->].
    apply py_bind_ok in Hrun as (subj & g4 & _ & Hrun).
    apply py_bind_ok in Hrun as (rest & g5 & Hrest & Hrun).
    apply py_ret_ok in Hrest as [-> ->]. apply py_ret_ok in Hrun as [-> _].
    split; [repeat constructor|]. left. reflexivity.
  - apply len_two in Hsfe as (s1 & s2 & ->).
    change (zip (arange 0 (len [s1; s2])) [s1; s2]) with [(0, s1); (1, s2)] in Hrun.
    cbn [fte_loop] in Hrun.
    change (0 =? 2 - 1) with false in Hrun. change (1 =? 2 - 1) with true in Hrun.
    cbv iota in Hrun.
    apply py_bind_ok in Hrun as (fte1 & g3 & Hfte1 & Hrun).
    apply py_bind_ok in Hfte1 as (x & g3' & Hx & Hfte1).
    apply py_ret_ok in Hfte1 as [-> ->].
    apply uniform_spec in Hx as (Hv & Hlo & Hhi); try reflexivity.
    apply py_bind_ok in Hrun as (subj1 & g4 & _ & Hrun).
    apply py_bind_ok in Hrun as (rest & g5 & Hrest & Hrun).
    apply py_ret_ok in Hrun as [-> _].
    apply py_bind_ok in Hrest as (fte2 & g6 & Hfte2 & Hrest).
    apply py_ret_ok in Hfte2 as [-> ->].
    apply py_bind_ok in Hrest as (subj2 & g7 & _ & Hrest).
    apply py_bind_ok in Hrest as (rest' & g8 & Hnil & Hrest).
    apply py_ret_ok in Hnil as [-> ->]. apply py_ret_ok in Hrest as [-> _].
    split; [repeat constructor|]. right. exists x. auto.
Qed.

Definition educator_block (e : educator) (rows : list assignment) : Prop :=
  Forall (fun r => sf_educator_id r = ed_educator_id e) rows /\
  fte_split (map sf_fte rows).

Lemma staffing_loop_blocks school_ids year educators acc g res g' :
  staffing_loop school_ids year educators acc g = Ok (res, g') ->
  exists blocks, res = acc ++ concat blocks /\ Forall2 educator_block educators blocks.
Proof.
  revert acc g. induction educators as [|e educators IH]; intros acc g Hrun.
  - apply py_ret_ok in Hrun as [-> _]. exists []. split; [|constructor].
    cbn. rewrite app_nil_r. reflexivity.
  - cbn [staffing_loop] in Hrun.
    apply py_bind_ok in Hrun as (rows & g1 & Hrows & Hrun).
    apply staffing_of_educator_rows in Hrows.
    apply IH in Hrun as (blocks & -> & Hblocks).
    exists (rows :: blocks). split; [|constructor; assumption].
    cbn [concat]. rewrite app_assoc. reflexivity.
Qed.

Lemma NoDup_fst_zip {A B} (l : list A) (k : list B) :
  NoDup l -> NoDup (map fst (zip l k)).
Proof.
  intros Hl. revert k. induction Hl as [|x l Hx Hl IH]; intros [|y k]; cbn;
    try constructor.
  - intros Hin. apply Hx. apply list_elem_of_fmap in Hin as ([x' y'] & -> & Hin).
    apply elem_of_zip_l in Hin. exact Hin.
  - apply IH.
Qed.

Lemma gen_educators_ids cfg g educators g' :
  gen_educators cfg g = Ok (educators, g') -> NoDup (map ed_educator_id educators).
Proof.
  unfold gen_educators. intros Hrun.
  apply py_bind_ok in Hrun as (role & g1 & _ & Hrun).
  apply py_bind_ok in Hrun as (cert & g2 & _ & Hrun).
  apply py_bind_ok in Hrun as (exp_draw & g3 & _ & Hrun).
  apply py_lift_ok in Hrun as [Hframe _].
  apply DataFrame_ok in Hframe as [-> _].
  rewrite map_map.
  erewrite map_ext; [apply (NoDup_fst_zip _ _ (NoDup_arange _ _))|].
  intros [i [ro [ce [y h]]]]. reflexivity.
Qed.

Lemma group_staffing rows k :
  group (map (fun r => (sf_educator_id r, sf_fte r)) rows) k =
  map sf_fte (filter (fun r => sf_educator_id r =? k) rows).
Proof.
  unfold group. induction rows as [|r rows IH]; [reflexivity|].
  cbn [map]. rewrite !filter_cons. cbn [fst].
  destruct (decide (sf_educator_id r =? k)); cbn [map snd]; rewrite IH; reflexivity.
Qed.

Lemma filter_educator_block e rows k :
  Forall (fun r => sf_educator_id r = ed_educator_id e) rows ->
  filter (fun r => sf_educator_id r =? k) rows =
    if bool_decide (ed_educator_id e = k) then rows else [].
Proof.
  intros Hrows. induction Hrows as [|r rows Hr _ IH].
  - destruct (bool_decide _); reflexivity.
  - rewrite filter_cons, IH, Hr.
    destruct (Z.eqb_spec (ed_educator_id e) k) as [Hk|Hk].
    + rewrite bool_decide_eq_true_2 by assumption.
      destruct (decide (Is_true true)) as [_|Hn]; [reflexivity | exfalso; apply Hn; exact I].
    + rewrite bool_decide_eq_false_2 by assumption.
      destruct (decide (Is_true false)) as [[]|_]; reflexivity.
Qed.

Lemma blocks_of_educator educators blocks k :
  NoDup (map ed_educator_id educators) -> Forall2 educator_block educators blocks ->
  let fs := map sf_fte (filter (fun r => sf_educator_id r =? k) (concat blocks)) in
  (k ∈ map ed_educator_id educators -> fte_split fs) /\
  (k ∉ map ed_educator_id educators -> fs = []).
Proof.
  intros Hnd Hblocks. induction Hblocks as [|e rows educators blocks [Hid Hsplit] _ IH].
  - cbn. split; [intros Hin; inversion Hin | reflexivity].
  - cbn [map] in Hnd. inversion Hnd as [|x l Hfresh Hnd']; subst. clear Hnd.
    rename Hnd' into Hnd.
    specialize (IH Hnd). cbn zeta in IH. destruct IH as [IHin IHout].
    cbn [concat map]. rewrite filter_app, map_app, (filter_educator_block e _ _ Hid).
    destruct (bool_decide (ed_educator_id e = k)) eqn:Ek.
    + apply bool_decide_eq_true_1 in Ek. subst k.
      rewrite (IHout Hfresh), app_nil_r. split; [intros _; exact Hsplit|].
      intros Hn. exfalso. apply Hn. left.
    + apply bool_decide_eq_false_1 in Ek. cbn [map app]. split.
      * intros Hin. apply elem_of_cons in Hin as [Hin|Hin]; [congruence | auto].
      * intros Hn. apply IHout. intros Hin. apply Hn. right. exact Hin.
Qed.

Lemma hundredths_total k :
  30 <= k <= 100 ->
  F64.eqb (F64.kahan_sum [F64.dec k 100;
                          F64.py_max F64.zero (F64.sub F64.one (F64.dec k 100))])
          F64.one = true.
Proof.
  intros Hk.
  assert (Hall : forallb
            (fun k => F64.eqb (F64.kahan_sum
                        [F64.dec k 100;
                         F64.py_max F64.zero (F64.sub F64.one (F64.dec k 100))])
                      F64.one)
            (map Z.of_nat (seq 30 71)) = true) by (vm_compute; reflexivity).
  rewrite forallb_forall in Hall. apply Hall.
  apply in_map_iff. exists (Z.to_nat k). split; [lia|]. apply in_seq. lia.
Qed.

Lemma eqb_leb x y : F64.eqb x y = true -> F64.leb x y = true.
Proof.
  unfold F64.eqb, F64.leb, SFeqb, SFleb. destruct (SFcompare x y) as [[]|]; auto.
Qed.

Lemma fte_split_total fs : fte_split fs -> F64.eqb (F64.kahan_sum fs) F64.one = true.
Proof.
  intros [->|(x & Hv & Hlo & Hhi & ->)]; [reflexivity|].
  destruct (round_hundredths x Hv Hlo Hhi) as (k & Hk & ->).
  apply hundredths_total. exact Hk.
Qed.

End GeneratorProps.

Lemma eligible_school schools lvl v :
  v ∈ eligible schools lvl ->
  exists sc, sc ∈ schools /\ sc_school_id sc = v /\ sc_school_level sc = lvl.
Proof.
  unfold eligible. intros Hv. apply list_elem_of_fmap in Hv as (sc & -> & Hsc).
  apply list_elem_of_filter in Hsc as [Hlvl Hsc]. apply bool_decide_unpack in Hlvl.
  exists sc. auto.
Qed.

Lemma isin_all (col values : list Z) :
  Forall (fun x => x ∈ values) col -> count_true (isin col values) = len col.
Proof.
  unfold count_true, isin, len. intros Hall. f_equal.
  induction Hall as [|x col Hx _ IH]; [reflexivity|].
  cbn [map]. rewrite filter_cons, bool_decide_eq_true_2 by exact Hx.
  destruct (decide (true = true)) as [_|Hn]; [|congruence].
  cbn [length]. rewrite IH. reflexivity.
Qed.

Lemma bridge_lookup (students : list student) ss i b :
  bridge students ss !! i = Some b ->
  exists s v, students !! i = Some s /\ ss !! i = Some v /\
              ss_student_id b = st_student_id s /\ ss_school_id b = v.
Proof.
  unfold bridge. rewrite list_lookup_fmap. intros Hb.
  destruct (zip students ss !! i) as [[s v]|] eqn:Hz; [|discriminate].
  injection Hb as <-. apply lookup_zip_with_Some in Hz as (s' & v' & [= -> ->] & Hs & Hv).
  exists s', v'. auto.
Qed.

Section GeneratorTheorems.

Context {rng : Type} `{Generator rng}.

(** C4. Two runs of the generator with the same configuration, and so the
    same seed, end the same way: with the same six tables (same rows, same
    values, same order) or with the same exception. The generator state is
    built from the seed alone, and the one thing that may differ between
    two runs, the contents of the buffer [np.empty] hands out, never reaches
    a table: every position is overwritten, since every grade drawn lies in
    one of the three bands. *)
Theorem generate_all_deterministic (heap1 heap2 : nat -> Z) (cfg : GenConfig) :
  generate_all heap1 cfg = generate_all heap2 cfg.
Proof.
  unfold generate_all.
  destruct (default_rng (seed cfg)) as [g0|e]; [|reflexivity].
  assert (Hfrom : generate_from heap1 cfg g0 = generate_from heap2 cfg g0).
  { unfold generate_from.
    apply py_bind_ext. intros schools g1 _.
    apply py_bind_ext. intros students g2 Hstudents.
    apply gen_students_grades in Hstudents.
    unfold py_bind at 1 7.
    rewrite (gen_student_school_heap heap1 heap2 cfg schools students g2 Hstudents).
    reflexivity. }
  rewrite Hfrom. reflexivity.
Qed.

(** C9. In the tables of a successful run, the bridge has one row per
    student, in the order of the students table, and the school of each row
    is a school of the schools table whose level is the one of the student's
    grade band: elementary for grades 3 to 5, middle for 6 to 8, high for 9
    to 12. (A run in which a band has students but no school of its level
    does not return tables: the draw of the school raises.) *)
Theorem students_assigned_by_grade_band (heap : nat -> Z) (cfg : GenConfig) (t : tables) :
  generate_all heap cfg = Ok t ->
  Forall2
    (fun s b =>
       ss_student_id b = st_student_id s /\
       exists sc,
         sc ∈ t_schools t /\ sc_school_id sc = ss_school_id b /\
         ((3 <= st_grade_level s <= 5 /\ sc_school_level sc = "elementary") \/
          (6 <= st_grade_level s <= 8 /\ sc_school_level sc = "middle") \/
          (9 <= st_grade_level s <= 12 /\ sc_school_level sc = "high")))
    (t_students t) (t_student_school t).
Proof.
  intros Hrun.
  apply generate_all_stages in Hrun
    as (ss & g0 & g1 & g2 & g3 & g4 & g5 & g6 & _ & _ & Hstudents & Hss & Hbridge & _).
  apply gen_students_grades in Hstudents.
  destruct (gen_student_school_bands _ _ _ _ _ _ _ Hss Hstudents) as [Hlen Hband].
  rewrite Hbridge. apply Forall2_same_length_lookup_2.
  - unfold bridge. rewrite length_map, length_zip. lia.
  - intros i s b Hs Hb.
    apply bridge_lookup in Hb as (s' & v & Hs' & Hv & Hid & Hsid).
    assert (s' = s) by congruence. subst s'.
    split; [exact Hid|]. rewrite Hsid.
    destruct (Hband i s v Hs Hv) as [[Hg Hel]|[[Hg Hel]|[Hg Hel]]];
      apply eligible_school in Hel as (sc & Hsc & Hscid & Hlvl);
      exists sc; (split; [exact Hsc|]); (split; [exact Hscid|]); auto.
Qed.

(** C2 (the code departs from the specification). In the tables of a successful
    run every bridge row names a student of the students table and a school
    of the schools table. The checker nevertheless reports both
    referential-integrity entries as failed on these tables, with the detail
    [-(rows of the bridge) - 1]: it complements the count of the references
    that are present. *)
Theorem generated_bridge_resolves_but_checks_fail
    (heap : nat -> Z) (cfg : GenConfig) (t : tables) :
  generate_all heap cfg = Ok t ->
  Forall (fun b => ss_student_id b ∈ map st_student_id (t_students t) /\
                   ss_school_id b ∈ map sc_school_id (t_schools t))
         (t_student_school t) /\
  exists r,
    run_quality_checks (t_schools t) (t_students t) (t_student_school t)
                       (t_educators t) (t_staffing t) (t_assessments t) = Ok r /\
    checks r !! 3%nat =
      Some {| name := "student_school_valid_school_id"; passed := false;
              detail := [("missing_school_refs",
                          VInt (- len (t_student_school t) - 1))] |} /\
    checks r !! 4%nat =
      Some {| name := "student_school_valid_student_id"; passed := false;
              detail := [("missing_student_refs",
                          VInt (- len (t_student_school t) - 1))] |}.
Proof.
  intros Hrun.
  assert (Hres : Forall (fun b => ss_student_id b ∈ map st_student_id (t_students t) /\
                                  ss_school_id b ∈ map sc_school_id (t_schools t))
                        (t_student_school t)).
  { apply generate_all_stages in Hrun
      as (ss & g0 & g1 & g2 & g3 & g4 & g5 & g6 & _ & _ & Hstudents & Hss & Hbridge & _).
    apply gen_students_grades in Hstudents.
    destruct (gen_student_school_bands _ _ _ _ _ _ _ Hss Hstudents) as [_ Hband].
    rewrite Hbridge. apply List.Forall_forall. intros b Hb.
    apply list_elem_of_In, list_elem_of_lookup_1 in Hb as [i Hb].
    apply bridge_lookup in Hb as (s & v & Hs & Hv & -> & ->).
    split.
    - apply list_elem_of_fmap_2. eapply list_elem_of_lookup_2. exact Hs.
    - destruct (Hband i s v Hs Hv) as [[_ Hel]|[[_ Hel]|[_ Hel]]];
        apply eligible_school in Hel as (sc & Hsc & <- & _);
        apply list_elem_of_fmap_2; exact Hsc. }
  split; [exact Hres|].
  destruct (run_quality_checks_report (t_schools t) (t_students t) (t_student_school t)
              (t_educators t) (t_staffing t) (t_assessments t))
    as (rate & p1 & d1 & p2 & d2 & p3 & d3 & p6 & d6 & p8 & d8 & p9 & d9 & _ & Hck).
  cbv zeta in Hck. eexists. split; [exact Hck|]. cbn [checks lookup list_lookup].
  rewrite !isin_all.
  - unfold len. rewrite !length_map. fold (len (t_student_school t)).
    pose proof (len_nonneg (t_student_school t)) as Hn.
    replace (Z.lnot (len (t_student_school t)))
      with (- len (t_student_school t) - 1) by (unfold Z.lnot; lia).
    replace (- len (t_student_school t) - 1 =? 0) with false
      by (symmetry; apply Z.eqb_neq; lia).
    split; reflexivity.
  - apply List.Forall_forall. intros x Hx.
    apply list_elem_of_In, list_elem_of_fmap in Hx as (b & -> & Hb).
    rewrite List.Forall_forall in Hres. apply list_elem_of_In, Hres in Hb. tauto.
  - apply List.Forall_forall. intros x Hx.
    apply list_elem_of_In, list_elem_of_fmap in Hx as (b & -> & Hb).
    rewrite List.Forall_forall in Hres. apply list_elem_of_In, Hres in Hb. tauto.
Qed.

(** C3. In the staffing table of a successful run, the FTE values of an
    educator's rows are either a single 1.0, or the two-decimal rounding of a
    draw between 0.3 and 1.0 followed by the remaining budget floored at
    zero; an id that is no educator's has no row. In every case the sum of
    the rows' FTE, computed in binary64 as [groupby(...).sum()] computes it,
    is at most 1.0 (for an educator it is exactly 1.0). *)
Theorem educator_fte_total (heap : nat -> Z) (cfg : GenConfig) (t : tables) :
  generate_all heap cfg = Ok t ->
  forall k : Z,
    let fs := group (map (fun r => (sf_educator_id r, sf_fte r)) (t_staffing t)) k in
    (k ∈ map ed_educator_id (t_educators t) ->
     fte_split fs /\ F64.eqb (F64.kahan_sum fs) F64.one = true) /\
    (k ∉ map ed_educator_id (t_educators t) -> fs = []) /\
    F64.leb (F64.kahan_sum fs) F64.one = true.
Proof.
  intros Hrun k fs.
  apply generate_all_stages in Hrun
    as (ss & g0 & g1 & g2 & g3 & g4 & g5 & g6 & _ & _ & _ & _ & _ & Hed & Hst & _).
  apply gen_educators_ids in Hed.
  unfold gen_staffing in Hst.
  apply staffing_loop_blocks in Hst as (blocks & Hst & Hblocks).
  cbn [app] in Hst.
  destruct (blocks_of_educator _ _ k Hed Hblocks) as [Hin Hout].
  assert (Hfs : fs = map sf_fte (filter (fun r => sf_educator_id r =? k) (concat blocks)))
    by (unfold fs; rewrite Hst; apply group_staffing).
  rewrite <- Hfs in Hin, Hout.
  split; [|split].
  - intros Hk. split; [auto | apply fte_split_total; auto].
  - exact Hout.
  - destruct (decide (k ∈ map ed_educator_id (t_educators t))) as [Hk|Hk].
    + apply eqb_leb, fte_split_total. auto.
    + rewrite (Hout Hk). reflexivity.
Qed.

End GeneratorTheorems.

(** ** Concrete runs *)

(** A small configuration, run with the small generator of [Lcg] and a
    buffer of zeros. *)
Definition demo_cfg : GenConfig :=
  {| seed := 1; n_districts := 2; n_schools := 4; n_students := 6;
     n_educators := 4; school_year := 2025 |}.

Definition no_tables : tables :=
  {| t_schools := []; t_students := []; t_student_school := [];
     t_educators := []; t_staffing := []; t_assessments := [] |}.

Definition demo_tables : tables :=
  Eval vm_compute in
    match generate_all (fun _ => 0) demo_cfg with
    | Ok t => t
    | Raise _ => no_tables
    end.

Lemma demo_run : generate_all (fun _ => 0) demo_cfg = Ok demo_tables.
Proof. vm_compute. reflexivity. Qed.

(** The run has educators with one and with two assignments. *)
Example demo_staffing_fte :
  map (fun r => (sf_educator_id r, sf_fte r)) (t_staffing demo_tables) =
    [(3000001, F64.one); (3000001, F64.zero);
     (3000002, F64.one); (3000002, F64.zero);
     (3000003, F64.dec 3 10); (3000003, F64.dec 7 10);
     (3000004, F64.one)].
Proof. vm_compute. reflexivity. Qed.

Example demo_bridge :
  map (fun b => (ss_student_id b, ss_school_id b)) (t_student_school demo_tables) =
    [(2000001, 1001); (2000002, 1001); (2000003, 1004);
     (2000004, 1001); (2000005, 1001); (2000006, 1004)] /\
  map st_grade_level (t_students demo_tables) = [5; 3; 7; 5; 3; 8] /\
  map sc_school_level (t_schools demo_tables) =
    ["elementary"; "high"; "high"; "middle"].
Proof. vm_compute. auto. Qed.

Lemma students_assigned_by_grade_band_witness :
  generate_all (fun _ => 0) demo_cfg = Ok demo_tables /\
  Forall2
    (fun s b =>
       ss_student_id b = st_student_id s /\
       exists sc,
         sc ∈ t_schools demo_tables /\ sc_school_id sc = ss_school_id b /\
         ((3 <= st_grade_level s <= 5 /\ sc_school_level sc = "elementary") \/
          (6 <= st_grade_level s <= 8 /\ sc_school_level sc = "middle") \/
          (9 <= st_grade_level s <= 12 /\ sc_school_level sc = "high")))
    (t_students demo_tables) (t_student_school demo_tables).
Proof.
  assert (Hrun : generate_all (fun _ => 0) demo_cfg = Ok demo_tables)
    by (vm_compute; reflexivity).
  split; [exact Hrun|].
  exact (students_assigned_by_grade_band (fun _ => 0) demo_cfg demo_tables Hrun).
Defined.

Lemma generated_bridge_resolves_but_checks_fail_witness :
  generate_all (fun _ => 0) demo_cfg = Ok demo_tables /\
  Forall (fun b => ss_student_id b ∈ map st_student_id (t_students demo_tables) /\
                   ss_school_id b ∈ map sc_school_id (t_schools demo_tables))
         (t_student_school demo_tables) /\
  exists r,
    run_quality_checks (t_schools demo_tables) (t_students demo_tables)
                       (t_student_school demo_tables) (t_educators demo_tables)
                       (t_staffing demo_tables) (t_assessments demo_tables) = Ok r /\
    checks r !! 3%nat =
      Some {| name := "student_school_valid_school_id"; passed := false;
              detail := [("missing_school_refs",
                          VInt (- len (t_student_school demo_tables) - 1))] |} /\
    checks r !! 4%nat =
      Some {| name := "student_school_valid_student_id"; passed := false;
              detail := [("missing_student_refs",
                          VInt (- len (t_student_school demo_tables) - 1))] |}.
Proof.
  assert (Hrun : generate_all (fun _ => 0) demo_cfg = Ok demo_tables)
    by (vm_compute; reflexivity).
  split; [exact Hrun|].
  exact (generated_bridge_resolves_but_checks_fail (fun _ => 0) demo_cfg demo_tables Hrun).
Defined.

Lemma educator_fte_total_witness :
  generate_all (fun _ => 0) demo_cfg = Ok demo_tables /\
  let fs := group (map (fun r => (sf_educator_id r, sf_fte r)) (t_staffing demo_tables))
                  3000003 in
  (3000003 ∈ map ed_educator_id (t_educators demo_tables) ->
   fte_split fs /\ F64.eqb (F64.kahan_sum fs) F64.one = true) /\
  (3000003 ∉ map ed_educator_id (t_educators demo_tables) -> fs = []) /\
  F64.leb (F64.kahan_sum fs) F64.one = true.
Proof.
  assert (Hrun : generate_all (fun _ => 0) demo_cfg = Ok demo_tables)
    by (vm_compute; reflexivity).
  split; [exact Hrun|].
  exact (educator_fte_total (fun _ => 0) demo_cfg demo_tables Hrun 3000003).
Defined.

Lemma certification_check_without_teachers_witness :
  Forall (fun e => ed_role e <> "teacher") [person 3000001 "counselor" "none"] /\
  py_truediv 0 (Z.max 1 0) = Ok F64.zero /\
  exists r,
    run_quality_checks [] [] [] [person 3000001 "counselor" "none"] [] [] = Ok r /\
    checks r !! 6%nat =
      Some {| name := "teacher_certification_none_rate_leq_0_02"; passed := true;
              detail := [("teacher_count", VInt 0); ("none_cert_count", VInt 0);
                         ("none_cert_rate", VFloat F64.zero)] |}.
Proof.
  assert (Hno : Forall (fun e => ed_role e <> "teacher")
                       [person 3000001 "counselor" "none"])
    by (repeat constructor; discriminate).
  split; [exact Hno|].
  exact (certification_check_without_teachers [] [] [] _ [] [] Hno).
Defined.

(** The failing input of C1: one bridge row whose student and school both
    exist. No reference is missing, yet both entries fail, with detail -2. *)
Example referential_checks_on_valid_bridge :
  let school :=
    {| sc_school_id := 1001; sc_district_id := 1; sc_school_name := "School 1";
       sc_school_level := "high"; sc_urbanicity := "urban" |} in
  let pupil :=
    {| st_student_id := 2000001; st_birth_year := 2010; st_grade_level := 9;
       st_gender := "F"; st_race_ethnicity := "Asian"; st_frpl_flag := 0;
       st_ell_flag := 0; st_iep_flag := 0 |} in
  filter (fun b => ss_school_id b ∉ [1001]) [enrol 2000001 1001] = [] /\
  filter (fun b => ss_student_id b ∉ [2000001]) [enrol 2000001 1001] = [] /\
  exists r,
    run_quality_checks [school] [pupil] [enrol 2000001 1001] [] [] [] = Ok r /\
    checks r !! 3%nat =
      Some {| name := "student_school_valid_school_id"; passed := false;
              detail := [("missing_school_refs", VInt (-2))] |} /\
    checks r !! 4%nat =
      Some {| name := "student_school_valid_student_id"; passed := false;
              detail := [("missing_student_refs", VInt (-2))] |}.
Proof.
  split; [reflexivity|]. split; [reflexivity|].
  eexists. split; [vm_compute; reflexivity|]. split; reflexivity.
Qed.

(** The pair [0.41], [1.0 - 0.41]: as real numbers the two stored values
    are [7385903388887613 * 2^-54] and [5314247560297186 * 2^-53], which add
    to [1 + 2^-54]; binary64 addition rounds that sum to 1.0, and this is the
    sum every part of the program computes. *)
Example fte_pair_real_sum :
  F64.dec 41 100 = S754_finite false 7385903388887613 (-54) /\
  F64.py_max F64.zero (F64.sub F64.one (F64.dec 41 100))
    = S754_finite false 5314247560297186 (-53) /\
  7385903388887613 + 2 * 5314247560297186 = 2 ^ 54 + 1 /\
  F64.kahan_sum [F64.dec 41 100;
                 F64.py_max F64.zero (F64.sub F64.one (F64.dec 41 100))] = F64.one.
Proof. vm_compute. auto. Qed.
